(** * ceph-analysis: the Ceph OSD benchmark analyser

    A shallow embedding of [ceph-analysis.py]: the pandas frame is a list of
    rows, a Series is an association list from index label to value, and a
    Python dict is an insertion-ordered association list.

    Numbers.  The script computes on IEEE doubles.  A finite double is the
    rational it denotes.  In the first development arithmetic on these
    rationals is exact, so rounding error is left out; the one irrational
    result the script can produce, the square root taken by [std], is kept
    as an exact symbolic root, and the not-a-number value pandas uses for an
    undefined statistic is a constructor of its own.  Where the outcome of
    the detector's comparison itself is at stake, the detector is taken
    over an arithmetic, and the arithmetic of doubles (every operation
    rounded to the nearest double, ties to even, with infinities and NaN)
    is put in for the exact one. *)

From Stdlib Require Import List String Ascii ZArith QArith Qround Lia Bool.
From Stdlib Require Import DecimalString Permutation Sorted Lqa Qabs.
Import ListNotations.

Open Scope string_scope.
Open Scope list_scope.
Open Scope Z_scope.
Open Scope Q_scope.

(** ** Floating-point values *)

Inductive float : Type :=
| Fin (q : Q)     (* a finite value *)
| Root (q : Q)    (* the square root of the non-negative rational [q] *)
| NaN.            (* numpy.nan *)

Definition Qltb (x y : Q) : bool := negb (Qle_bool y x).

(** [x >= k] for a positive rational [k]; every comparison with NaN is
    false. *)
Definition float_geb (x : float) (k : Q) : bool :=
  match x with
  | Fin q => Qle_bool k q
  | Root q => Qle_bool (k * k) q
  | NaN => false
  end.

(** [x / k] for a positive rational [k]. *)
Definition float_div (x : float) (k : Q) : float :=
  match x with
  | Fin q => Fin (q / k)
  | Root q => Root (q / (k * k))
  | NaN => NaN
  end.

(** Nearest integer to the rational [q], ties to the even neighbour. *)
Definition round_half_even (q : Q) : Z :=
  let f := Qfloor q in
  let r := q - inject_Z f in
  if Qltb r (1 # 2) then f
  else if Qltb (1 # 2) r then (f + 1)%Z
  else if Z.even f then f else (f + 1)%Z.

(** Nearest integer to [100 * sqrt q].  With [n = floor (200 * sqrt q)] the
    candidate is [(n + 1) / 2]; there is a tie exactly when [200 * sqrt q]
    is an odd integer. *)
Definition round_root_hundredths (q : Q) : Z :=
  let x := Qfloor (40000 * q) in
  let n := Z.sqrt x in
  let k := ((n + 1) / 2)%Z in
  if (Z.odd n && Qeq_bool (inject_Z (n * n)) (40000 * q) && Z.odd k)%bool
  then (k - 1)%Z else k.

(** The value in hundredths, as [round(x, 2)] and the [.2f] format see it. *)
Definition hundredths (x : float) : option Z :=
  match x with
  | Fin q => Some (round_half_even (100 * q))
  | Root q => Some (round_root_hundredths q)
  | NaN => None
  end.

Definition float_negative (x : float) : bool :=
  match x with
  | Fin q => Qltb q 0
  | _ => false
  end.

(** [Series.round(2)]. *)
Definition round2 (x : float) : float :=
  match hundredths x with
  | Some k => Fin (inject_Z k / 100)
  | None => NaN
  end.

Definition decimal (n : Z) : string :=
  NilZero.string_of_uint (N.to_uint (Z.to_N n)).

Definition two_digits (n : Z) : string :=
  if (n <? 10)%Z then ("0" ++ decimal n)%string else decimal n.

(** The format [f"{x:.2f}"]. *)
Definition format_2f (x : float) : string :=
  match hundredths x with
  | Some k =>
      let a := Z.abs k in
      ((if float_negative x then "-" else "")
         ++ decimal (a / 100) ++ "." ++ two_digits (a mod 100))%string
  | None => "nan"
  end.

(** ** bytes_to_human_readable *)

Definition units : list string := ["B/s"; "KB/s"; "MB/s"; "GB/s"; "TB/s"].

(** The [while] loop: [unit] is [units[index]] and [rest] the units after
    it, so [index < len(units) - 1] is [rest] being non-empty. *)
Fixpoint scale_loop (bytes_value : float) (unit : string) (rest : list string)
  : float * string :=
  match rest with
  | [] => (bytes_value, unit)
  | next :: rest' =>
      if float_geb bytes_value 1024
      then scale_loop (float_div bytes_value 1024) next rest'
      else (bytes_value, unit)
  end.

Definition bytes_to_human_readable (bytes_value : float) : string :=
  match units with
  | [] => ""
  | u0 :: rest =>
      let '(v, u) := scale_loop bytes_value u0 rest in
      (format_2f v ++ " " ++ u)%string
  end.

(** ** Python values and control *)

Inductive Exception : Type :=
| KeyError               (* no such index label or column *)
| TypeError.             (* an operation met a value of the wrong type *)

Inductive result (A : Type) : Type :=
| Ok (a : A)
| Raise (e : Exception).
Arguments Ok {A} a.
Arguments Raise {A} e.

Class Monad (M : Type -> Type) : Type := {
  ret : forall {A}, A -> M A;
  bind : forall {A B}, M A -> (A -> M B) -> M B
}.

Notation "x <- m ;; k" := (bind m (fun x => k))
  (at level 61, m at next level, right associativity).
Notation "m ;;; k" := (bind m (fun _ => k))
  (at level 61, right associativity).

#[export] Instance Monad_result : Monad result := {
  ret := fun A a => Ok a;
  bind := fun A B m f => match m with Ok a => f a | Raise e => Raise e end
}.

Fixpoint mapM {M} `{Monad M} {A B} (f : A -> M B) (items : list A) : M (list B) :=
  match items with
  | [] => ret []
  | item :: items' => y <- f item ;; ys <- mapM f items' ;; ret (y :: ys)
  end.

Fixpoint foldM {M} `{Monad M} {A B} (f : A -> B -> M A) (l : list B) (a : A) : M A :=
  match l with
  | [] => ret a
  | x :: xs => a' <- f a x ;; foldM f xs a'
  end.

(** A dict with string keys, in insertion order: assigning to a key that is
    present replaces its value in place, a new key goes to the end. *)
Definition dict (V : Type) : Type := list (string * V).

Fixpoint dict_get {V} (d : dict V) (k : string) : option V :=
  match d with
  | [] => None
  | (k', v) :: d' => if String.eqb k' k then Some v else dict_get d' k
  end.

Fixpoint dict_set {V} (d : dict V) (k : string) (v : V) : dict V :=
  match d with
  | [] => [(k, v)]
  | (k', v') :: d' =>
      if String.eqb k' k then (k, v) :: d' else (k', v') :: dict_set d' k v
  end.

Definition dict_keys {V} (d : dict V) : list string := map fst d.

(** ** The sample table *)

Record Sample : Type := mkSample {
  device_class : string;
  osd_id : string;
  run_number : Z;
  timestamp : Z;
  bytes_per_sec : Q;
  iops : Q
}.

Definition DataFrame : Type := list Sample.

Inductive Metric : Type := BytesPerSec | Iops.

Definition column (m : Metric) (s : Sample) : Q :=
  match m with
  | BytesPerSec => bytes_per_sec s
  | Iops => iops s
  end.

(** [Series.unique()]: the distinct values in order of first appearance. *)
Fixpoint unique {A} (eqb : A -> A -> bool) (l : list A) : list A :=
  match l with
  | [] => []
  | x :: xs => x :: filter (fun y => negb (eqb x y)) (unique eqb xs)
  end.

(** [groupby] sorts its group keys. *)
Fixpoint insert {A} (leb : A -> A -> bool) (x : A) (l : list A) : list A :=
  match l with
  | [] => [x]
  | y :: ys => if leb x y then x :: l else y :: insert leb x ys
  end.

Definition sort {A} (leb : A -> A -> bool) (l : list A) : list A :=
  fold_right (insert leb) [] l.

Definition group_keys {A} (eqb leb : A -> A -> bool) (keys : list A) : list A :=
  sort leb (unique eqb keys).

(** A Series: index labels with their values. *)
Definition Series (K V : Type) : Type := list (K * V).

Fixpoint series_find {V} (s : Series Z V) (label : Z) : option V :=
  match s with
  | [] => None
  | (k, v) :: s' => if (k =? label)%Z then Some v else series_find s' label
  end.

(** [s[label]] on an integer index. *)
Definition series_get {V} (s : Series Z V) (label : Z) : result V :=
  match series_find s label with
  | Some v => Ok v
  | None => Raise KeyError
  end.

(** ** Descriptive statistics of one group *)

Inductive Stat : Type := Mean | Median | Std | Min | Max.

Definition all_stats : list Stat := [Mean; Median; Std; Min; Max].

Definition sum (l : list Q) : Q := fold_left Qplus l 0.

Definition Qcount (l : list Q) : Q := inject_Z (Z.of_nat (List.length l)).

Definition mean (l : list Q) : Q := sum l / Qcount l.

(** The middle value of the sorted group, or the mean of the two middle
    values when the group has an even number of members. *)
Definition median (l : list Q) : Q :=
  let s := sort Qle_bool l in
  let n := List.length l in
  if Nat.even n
  then (nth (n / 2 - 1) s 0 + nth (n / 2) s 0) / 2
  else nth (n / 2) s 0.

(** The unbiased variance (ddof = 1). *)
Definition variance (l : list Q) : Q :=
  let m := mean l in
  sum (map (fun x => (x - m) * (x - m)) l) / (Qcount l - 1).

Definition Qmin' (x y : Q) : Q := if Qle_bool x y then x else y.
Definition Qmax' (x y : Q) : Q := if Qle_bool x y then y else x.

(** One statistic of a group, as [agg] computes it; a groupby group is never
    empty, and pandas gives NaN wherever a statistic is undefined. *)
Definition aggregate (st : Stat) (l : list Q) : float :=
  match l with
  | [] => NaN
  | x :: xs =>
      match st with
      | Mean => Fin (mean l)
      | Median => Fin (median l)
      | Std => match xs with [] => NaN | _ :: _ => Root (variance l) end
      | Min => Fin (fold_left Qmin' xs x)
      | Max => Fin (fold_left Qmax' xs x)
      end
  end.

(** ** The interpreter state

    The script's functions receive [df], a reference to the one sample
    table of the run, and pandas keeps a global registry of display
    options.  Both live in the world; an exception leaves the world as it
    was when it was raised. *)

Inductive OptVal : Type :=
| OInt (n : Z)
| OBool (b : bool)
| ONone.

Record World : Type := mkWorld {
  table : DataFrame;
  pd_options : string -> OptVal
}.

Definition Py (A : Type) : Type := World -> result A * World.

#[export] Instance Monad_Py : Monad Py := {
  ret := fun A a w => (Ok a, w);
  bind := fun A B m f w =>
    match m w with
    | (Ok a, w') => f a w'
    | (Raise e, w') => (Raise e, w')
    end
}.

Definition lift {A} (r : result A) : Py A := fun w => (r, w).

Definition read_table : Py DataFrame := fun w => (Ok (table w), w).

(** [pd.set_option(name, value)]. *)
Definition set_option (name : string) (value : OptVal) : Py unit :=
  fun w =>
    (Ok tt,
     {| table := table w;
        pd_options := fun k => if String.eqb k name then value else pd_options w k |}).

(** ** Group keys *)

Inductive Label : Type :=
| LStr (s : string)
| LInt (n : Z).

Inductive KeyColumn : Type := DeviceClass | OsdId | RunNumber.

Definition key_of (c : KeyColumn) (s : Sample) : Label :=
  match c with
  | DeviceClass => LStr (device_class s)
  | OsdId => LStr (osd_id s)
  | RunNumber => LInt (run_number s)
  end.

Definition label_eqb (a b : Label) : bool :=
  match a, b with
  | LStr x, LStr y => String.eqb x y
  | LInt x, LInt y => (x =? y)%Z
  | _, _ => false
  end.

Definition label_leb (a b : Label) : bool :=
  match a, b with
  | LStr x, LStr y => String.leb x y
  | LInt x, LInt y => (x <=? y)%Z
  | LInt _, LStr _ => true
  | LStr _, LInt _ => false
  end.

Definition pair_eqb (a b : string * Z) : bool :=
  (String.eqb (fst a) (fst b) && (snd a =? snd b)%Z)%bool.

Definition pair_leb (a b : string * Z) : bool :=
  if String.eqb (fst a) (fst b) then (snd a <=? snd b)%Z
  else String.leb (fst a) (fst b).

(** ** calculate_basic_stats *)

(** A cell of a result frame: a float, or a string once a column has been
    formatted. *)
Inductive cell : Type :=
| CNum (x : float)
| CStr (s : string).

(** The statistics frame: one row per group, and in each row the cells
    under their column keys (metric, statistic), in the order [agg] lays
    the columns out. *)
Definition ColumnKey : Type := (Metric * Stat)%type.
Definition StatsRow : Type := list (ColumnKey * cell).
Definition StatsFrame : Type := list (Label * StatsRow).

Definition Metric_eqb (a b : Metric) : bool :=
  match a, b with
  | BytesPerSec, BytesPerSec | Iops, Iops => true
  | _, _ => false
  end.

Definition Stat_eqb (a b : Stat) : bool :=
  match a, b with
  | Mean, Mean | Median, Median | Std, Std | Min, Min | Max, Max => true
  | _, _ => false
  end.

Definition column_eqb (a b : ColumnKey) : bool :=
  (Metric_eqb (fst a) (fst b) && Stat_eqb (snd a) (snd b))%bool.

Fixpoint row_get (row : StatsRow) (c : ColumnKey) : result cell :=
  match row with
  | [] => Raise KeyError
  | (c', v) :: row' => if column_eqb c' c then Ok v else row_get row' c
  end.

Fixpoint row_set (row : StatsRow) (c : ColumnKey) (v : cell) : StatsRow :=
  match row with
  | [] => [(c, v)]
  | (c', v') :: row' =>
      if column_eqb c' c then (c, v) :: row' else (c', v') :: row_set row' c v
  end.

Definition group_rows (group_by : KeyColumn) (k : Label) (df : DataFrame) : DataFrame :=
  filter (fun s => label_eqb (key_of group_by s) k) df.

Definition agg_columns : list ColumnKey :=
  list_prod [BytesPerSec; Iops] all_stats.

(** [df.groupby(group_by).agg({...})]. *)
Definition groupby_agg (df : DataFrame) (group_by : KeyColumn) : StatsFrame :=
  map (fun k =>
         (k, map (fun c : ColumnKey =>
                    (c, CNum (aggregate (snd c)
                                (map (column (fst c)) (group_rows group_by k df)))))
                 agg_columns))
      (group_keys label_eqb label_leb (map (key_of group_by) df)).

(** [stats[c] = stats[c].apply(f)], for an [f] that may raise. *)
Definition apply_column (f : cell -> result cell) (c : ColumnKey)
    (stats : StatsFrame) : result StatsFrame :=
  mapM (fun kr : Label * StatsRow =>
          v <- row_get (snd kr) c ;;
          v' <- f v ;;
          ret (fst kr, row_set (snd kr) c v'))
       stats.

(** [bytes_to_human_readable] on a cell: it compares and divides, which a
    string does not support. *)
Definition human_readable_cell (c : cell) : result cell :=
  match c with
  | CNum x => Ok (CStr (bytes_to_human_readable x))
  | CStr _ => Raise TypeError
  end.

(** [.round(2)] on a cell. *)
Definition round_cell (c : cell) : result cell :=
  match c with
  | CNum x => Ok (CNum (round2 x))
  | CStr _ => Raise TypeError
  end.

Definition calculate_basic_stats (group_by : KeyColumn) : Py StatsFrame :=
  df <- read_table ;;
  let stats := groupby_agg df group_by in
  stats <- lift (foldM (fun stats stat =>
                          apply_column human_readable_cell (BytesPerSec, stat) stats)
                       all_stats stats) ;;
  stats <- lift (foldM (fun stats stat =>
                          apply_column round_cell (Iops, stat) stats)
                       all_stats stats) ;;
  set_option "display.max_columns" ONone ;;;
  set_option "display.width" ONone ;;;
  set_option "display.expand_frame_repr" (OBool false) ;;;
  set_option "display.max_rows" ONone ;;;
  ret stats.

(** ** calculate_aggregate_stats *)

Record AggRow : Type := mkAggRow {
  agg_device_class : string;
  agg_run_number : Z;
  agg_bytes_per_sec : cell;
  agg_iops : cell
}.

Definition pair_rows (k : string * Z) (df : DataFrame) : DataFrame :=
  filter (fun s => pair_eqb (device_class s, run_number s) k) df.

(** [df.groupby(['device_class', 'run_number']).agg({... 'sum'}).reset_index()]. *)
Definition groupby_sum (df : DataFrame) : list AggRow :=
  map (fun k =>
         {| agg_device_class := fst k;
            agg_run_number := snd k;
            agg_bytes_per_sec := CNum (Fin (sum (map bytes_per_sec (pair_rows k df))));
            agg_iops := CNum (Fin (sum (map iops (pair_rows k df)))) |})
      (group_keys pair_eqb pair_leb (map (fun s => (device_class s, run_number s)) df)).

Definition calculate_aggregate_stats : Py (list AggRow) :=
  df <- read_table ;;
  let agg_stats := groupby_sum df in
  agg_stats <- lift (mapM (fun r =>
                             c <- human_readable_cell (agg_bytes_per_sec r) ;;
                             ret {| agg_device_class := agg_device_class r;
                                    agg_run_number := agg_run_number r;
                                    agg_bytes_per_sec := c;
                                    agg_iops := agg_iops r |})
                          agg_stats) ;;
  agg_stats <- lift (mapM (fun r =>
                             c <- round_cell (agg_iops r) ;;
                             ret {| agg_device_class := agg_device_class r;
                                    agg_run_number := agg_run_number r;
                                    agg_bytes_per_sec := agg_bytes_per_sec r;
                                    agg_iops := c |})
                          agg_stats) ;;
  ret agg_stats.

(** ** identify_outliers

    The detector only reads the frame and touches no option, so it is a
    function of the frame's rows that may raise. *)

Definition class_frame (dc : string) (df : DataFrame) : DataFrame :=
  filter (fun s => String.eqb (device_class s) dc) df.

Definition osd_frame (osd : string) (class_df : DataFrame) : DataFrame :=
  filter (fun s => String.eqb (osd_id s) osd) class_df.

Definition run_frame (run : Z) (osd_data : DataFrame) : DataFrame :=
  filter (fun s => (run_number s =? run)%Z) osd_data.

Definition run_numbers (df : DataFrame) : list Z :=
  unique Z.eqb (map run_number df).

(** [class_df.groupby('run_number')[m].median()]. *)
Definition groupby_run_median (m : Metric) (class_df : DataFrame) : Series Z Q :=
  map (fun run => (run, median (map (column m) (run_frame run class_df))))
      (group_keys Z.eqb Z.leb (map run_number class_df)).

(** The body of the loop over runs; [iloc[0]] is the first row of
    [run_data], and [or] evaluates its right operand only when the left one
    is false. *)
Definition run_step (median_iops median_throughput : Series Z Q)
    (osd_data : DataFrame) (percentage_threshold : Q)
    (underperforming_runs : nat) (run : Z) : result nat :=
  match run_frame run osd_data with
  | [] => ret underperforming_runs
  | first :: _ =>
      mi <- series_get median_iops run ;;
      if Qltb (iops first) (mi * (1 - percentage_threshold / 100))
      then ret (S underperforming_runs)
      else
        mt <- series_get median_throughput run ;;
        if Qltb (bytes_per_sec first) (mt * (1 - percentage_threshold / 100))
        then ret (S underperforming_runs)
        else ret underperforming_runs
  end.

(** The count one device ends the loop over runs with. *)
Definition underperforming_runs (df class_df : DataFrame)
    (median_iops median_throughput : Series Z Q)
    (percentage_threshold : Q) (osd : string) : result nat :=
  let osd_data := osd_frame osd class_df in
  foldM (run_step median_iops median_throughput osd_data percentage_threshold)
        (run_numbers df) 0%nat.

(** [n > total_runs / 2], with Python's true division. *)
Definition majority (n total_runs : nat) : bool :=
  Qltb (inject_Z (Z.of_nat total_runs) / 2) (inject_Z (Z.of_nat n)).

(** The body of the loop over the devices of a class. *)
Definition osd_step (df class_df : DataFrame)
    (median_iops median_throughput : Series Z Q)
    (percentage_threshold : Q) (total_runs : nat)
    (poor_performing_counts : dict nat) (osd : string) : result (dict nat) :=
  n <- underperforming_runs df class_df median_iops median_throughput
         percentage_threshold osd ;;
  if majority n total_runs
  then ret (dict_set poor_performing_counts osd n)
  else ret poor_performing_counts.

(** The dict of flagged devices a class ends the loop over devices with. *)
Definition poor_performing_counts (df : DataFrame) (percentage_threshold : Q)
    (dc : string) : result (dict nat) :=
  let class_df := class_frame dc df in
  let median_iops := groupby_run_median Iops class_df in
  let median_throughput := groupby_run_median BytesPerSec class_df in
  let total_runs := List.length (run_numbers df) in
  foldM (osd_step df class_df median_iops median_throughput
           percentage_threshold total_runs)
        (unique String.eqb (map osd_id class_df)) [].

(** The body of the loop over device classes. *)
Definition class_step (df : DataFrame) (percentage_threshold : Q)
    (outliers : dict (list string)) (dc : string) : result (dict (list string)) :=
  counts <- poor_performing_counts df percentage_threshold dc ;;
  match counts with
  | [] => ret outliers
  | _ :: _ => ret (dict_set outliers dc (dict_keys counts))
  end.

Definition identify_outliers (df : DataFrame) (percentage_threshold : Q)
  : result (dict (list string)) :=
  foldM (class_step df percentage_threshold)
        (unique String.eqb (map device_class df)) [].

(** ** The detector in closed form

    What the three nested loops compute, written with filters; the lemmas
    below show that [identify_outliers] returns exactly this. *)

(** The median of metric [m] over the samples of class [dc] in [run]. *)
Definition class_median (m : Metric) (df : DataFrame) (dc : string) (run : Z) : Q :=
  median (map (column m) (run_frame run (class_frame dc df))).

Definition cutoff (m : Metric) (df : DataFrame) (t : Q) (dc : string) (run : Z) : Q :=
  class_median m df dc run * (1 - t / 100).

Definition total_runs (df : DataFrame) : nat := List.length (run_numbers df).

Definition device_run (df : DataFrame) (dc osd : string) (run : Z) : DataFrame :=
  run_frame run (osd_frame osd (class_frame dc df)).

Definition underperforms (df : DataFrame) (t : Q) (dc osd : string) (run : Z) : bool :=
  match device_run df dc osd run with
  | [] => false
  | first :: _ =>
      (Qltb (iops first) (cutoff Iops df t dc run)
       || Qltb (bytes_per_sec first) (cutoff BytesPerSec df t dc run))%bool
  end.

Definition count_below (df : DataFrame) (t : Q) (dc osd : string) : nat :=
  List.length (filter (underperforms df t dc osd) (run_numbers df)).

Definition class_osds (df : DataFrame) (dc : string) : list string :=
  unique String.eqb (map osd_id (class_frame dc df)).

Definition flagged_osds (df : DataFrame) (t : Q) (dc : string) : list string :=
  filter (fun osd => majority (count_below df t dc osd) (total_runs df))
         (class_osds df dc).

Definition is_nil {A} (l : list A) : bool :=
  match l with [] => true | _ :: _ => false end.

Definition outliers_closed (df : DataFrame) (t : Q) : dict (list string) :=
  map (fun dc => (dc, flagged_osds df t dc))
      (filter (fun dc => negb (is_nil (flagged_osds df t dc)))
              (unique String.eqb (map device_class df))).

(** The count the code's loop over runs reaches for device [osd] of class
    [dc], with the medians of that class. *)
Definition runs_below (df : DataFrame) (t : Q) (dc osd : string) : result nat :=
  let class_df := class_frame dc df in
  underperforming_runs df class_df
    (groupby_run_median Iops class_df)
    (groupby_run_median BytesPerSec class_df) t osd.

(** [osd] is listed under [dc] in the detector's result. *)
Definition flagged (outliers : dict (list string)) (dc osd : string) : Prop :=
  exists l, dict_get outliers dc = Some l /\ In osd l.

(** The invariants of the sample table: the metrics are non-negative and a
    device has at most one sample in a run. *)
Definition well_formed (df : DataFrame) : Prop :=
  (forall s, In s df -> 0 <= bytes_per_sec s /\ 0 <= iops s)
  /\ NoDup (map (fun s => (osd_id s, run_number s)) df).

(** ** The aggregator in closed form *)

(** The cell [calculate_basic_stats] leaves in column [c] for a group with
    the given values: formatted text under bytes_per_sec, a rounded number
    under iops. *)
Definition reported_cell (c : ColumnKey) (values : list Q) : cell :=
  match fst c with
  | BytesPerSec => CStr (bytes_to_human_readable (aggregate (snd c) values))
  | Iops => CNum (round2 (aggregate (snd c) values))
  end.

Definition stats_closed (df : DataFrame) (group_by : KeyColumn) : StatsFrame :=
  map (fun k =>
         (k, map (fun c : ColumnKey =>
                    (c, reported_cell c (map (column (fst c)) (group_rows group_by k df))))
                 agg_columns))
      (group_keys label_eqb label_leb (map (key_of group_by) df)).

(** The option registry after the four [set_option] calls. *)
Definition display_options (old : string -> OptVal) : string -> OptVal :=
  fun k =>
    if String.eqb k "display.max_rows" then ONone
    else if String.eqb k "display.expand_frame_repr" then OBool false
    else if String.eqb k "display.width" then ONone
    else if String.eqb k "display.max_columns" then ONone
    else old k.

Definition pair_keys (df : DataFrame) : list (string * Z) :=
  group_keys pair_eqb pair_leb (map (fun s => (device_class s, run_number s)) df).

Definition agg_key (r : AggRow) : string * Z :=
  (agg_device_class r, agg_run_number r).

Definition totals_closed (df : DataFrame) : list AggRow :=
  map (fun k =>
         {| agg_device_class := fst k;
            agg_run_number := snd k;
            agg_bytes_per_sec :=
              CStr (bytes_to_human_readable (Fin (sum (map bytes_per_sec (pair_rows k df)))));
            agg_iops := CNum (round2 (Fin (sum (map iops (pair_rows k df))))) |})
      (pair_keys df).

(** The row of a statistics frame under index label [k]. *)
Definition frame_row (stats : StatsFrame) (k : Label) : option StatsRow :=
  match find (fun kr => label_eqb (fst kr) k) stats with
  | Some kr => Some (snd kr)
  | None => None
  end.



(** ** Sample tables used as instances *)

Definition row (dc osd : string) (run : Z) (bw io : Q) : Sample :=
  mkSample dc osd run 0 bw io.

(** Two hdd devices over two runs, with the iops of the scenario and any
    bytes_per_sec. *)
Definition scenario (a1 b1 a2 b2 : Q) : DataFrame :=
  [ row "hdd" "A" 1 a1 100; row "hdd" "B" 1 b1 50;
    row "hdd" "A" 2 a2 100; row "hdd" "B" 2 b2 40 ].

(** Five hdd devices over four runs: B is slow in runs 1 to 3, C in runs 1
    and 2. *)
Definition four_runs : DataFrame :=
  [ row "hdd" "A" 1 1000 100; row "hdd" "D" 1 1000 100; row "hdd" "E" 1 1000 100;
    row "hdd" "B" 1 1000 50;  row "hdd" "C" 1 1000 50;
    row "hdd" "A" 2 1000 100; row "hdd" "D" 2 1000 100; row "hdd" "E" 2 1000 100;
    row "hdd" "B" 2 1000 50;  row "hdd" "C" 2 1000 50;
    row "hdd" "A" 3 1000 100; row "hdd" "D" 3 1000 100; row "hdd" "E" 3 1000 100;
    row "hdd" "B" 3 1000 50;  row "hdd" "C" 3 1000 100;
    row "hdd" "A" 4 1000 100; row "hdd" "D" 4 1000 100; row "hdd" "E" 4 1000 100;
    row "hdd" "B" 4 1000 100; row "hdd" "C" 4 1000 100 ].

(** One nvme device next to two hdd devices. *)
Definition lone_device : DataFrame :=
  [ row "hdd" "A" 1 1000 100; row "hdd" "B" 1 900 50; row "nvme" "N" 1 5000 700;
    row "hdd" "A" 2 1000 100; row "hdd" "B" 2 900 40; row "nvme" "N" 2 4000 300 ].

(** Two ssd devices in run 1, one hdd device in run 2. *)
Definition ssd_pair : DataFrame :=
  [ row "ssd" "S1" 1 1000 10; row "ssd" "S2" 1 2000 20; row "hdd" "H1" 2 500 5 ].

(** The values pandas registers for the four display options. *)
Definition pandas_defaults : string -> OptVal :=
  fun k =>
    if String.eqb k "display.max_rows" then OInt 60
    else if String.eqb k "display.expand_frame_repr" then OBool true
    else if String.eqb k "display.width" then OInt 80
    else if String.eqb k "display.max_columns" then OInt 20
    else ONone.

(** ** Further notions and instances *)

(** The number of the table's runs in which the device has a sample. *)
Definition participation (df : DataFrame) (dc osd : string) : nat :=
  List.length (filter (fun run => negb (is_nil (device_run df dc osd run)))
                      (run_numbers df)).

Definition non_negative (df : DataFrame) : Prop :=
  forall s, In s df -> 0 <= bytes_per_sec s /\ 0 <= iops s.

(** The order of the per-run totals: class first, run number second. *)
Definition pair_before (a b : string * Z) : Prop :=
  String.ltb (fst a) (fst b) = true \/ (fst a = fst b /\ (snd a <= snd b)%Z).

(** Three steady hdd devices over four runs, and B, slow but present in
    runs 1 and 2 only. *)
Definition sparse_device : DataFrame :=
  [ row "hdd" "A" 1 1000 100; row "hdd" "D" 1 1000 100; row "hdd" "E" 1 1000 100;
    row "hdd" "B" 1 1000 10;
    row "hdd" "A" 2 1000 100; row "hdd" "D" 2 1000 100; row "hdd" "E" 2 1000 100;
    row "hdd" "B" 2 1000 10;
    row "hdd" "A" 3 1000 100; row "hdd" "D" 3 1000 100; row "hdd" "E" 3 1000 100;
    row "hdd" "A" 4 1000 100; row "hdd" "D" 4 1000 100; row "hdd" "E" 4 1000 100 ].

(** [four_runs] with an ssd device benchmarked in two further runs. *)
Definition two_more_runs : DataFrame :=
  four_runs ++ [ row "ssd" "S" 5 9000 900; row "ssd" "S" 6 9000 900 ].

(** [four_runs] with an ssd device benchmarked in runs 1 and 2. *)
Definition ssd_joins : DataFrame :=
  four_runs ++ [ row "ssd" "S" 1 9000 900; row "ssd" "S" 2 9000 900 ].

(** ** The comparison in double precision

    A double is finite, and then the rational it denotes, or an infinity,
    or NaN.  The sign of a zero is left out: none of the operations below
    gives a result that depends on it. *)

Inductive double : Type :=
| DFin (q : Q)
| DInf (negative : bool)
| DNaN.

(** [2 ^ e] for any integer [e]. *)
Definition pow2 (e : Z) : Q :=
  if (0 <=? e)%Z then inject_Z (2 ^ e) else 1 # Z.to_pos (2 ^ (- e)).

(** The integer [e] with [2 ^ e <= a < 2 ^ (e + 1)], for a positive [a]. *)
Definition floor_log2 (a : Q) : Z :=
  let e0 := (Z.log2 (Qnum a) - Z.log2 (Zpos (Qden a)))%Z in
  if Qle_bool (pow2 e0) a then e0 else (e0 - 1)%Z.

(** The double nearest to the rational [q], ties to the even significand:
    53 bits of significand, the spacing never below [2 ^ -1074], and an
    infinity when the rounded magnitude reaches [2 ^ 1024]. *)
Definition round_to_double (q : Q) : double :=
  if Qeq_bool q 0 then DFin 0
  else
    let a := Qabs q in
    let p := Z.max (floor_log2 a - 52) (-1074) in
    let r := inject_Z (round_half_even (a / pow2 p)) * pow2 p in
    if Qle_bool (pow2 1024) r then DInf (Qltb q 0)
    else DFin (if Qltb q 0 then - r else r).

Definition dneg (x : double) : double :=
  match x with
  | DFin q => DFin (- q)
  | DInf s => DInf (negb s)
  | DNaN => DNaN
  end.

(** [x + y], [x - y] and [x * y] of IEEE 754: the exact result rounded. *)
Definition dadd (x y : double) : double :=
  match x, y with
  | DFin a, DFin b => round_to_double (a + b)
  | DInf s, DFin _ | DFin _, DInf s => DInf s
  | DInf s, DInf s' => if Bool.eqb s s' then DInf s else DNaN
  | _, _ => DNaN
  end.

Definition dsub (x y : double) : double := dadd x (dneg y).

Definition dmul (x y : double) : double :=
  match x, y with
  | DFin a, DFin b => round_to_double (a * b)
  | DInf s, DFin b | DFin b, DInf s =>
      if Qeq_bool b 0 then DNaN else DInf (xorb s (Qltb b 0))
  | DInf s, DInf s' => DInf (xorb s s')
  | _, _ => DNaN
  end.

(** [x / k] for a positive finite [k]. *)
Definition ddiv_by (x : double) (k : Q) : double :=
  match x with
  | DFin a => round_to_double (a / k)
  | _ => x
  end.

(** [v < c] and [c <= v] for a finite [v]; false against NaN. *)
Definition dlt (v : Q) (c : double) : bool :=
  match c with
  | DFin q => Qltb v q
  | DInf negative => negb negative
  | DNaN => false
  end.


Definition double_eqb (x y : double) : bool :=
  match x, y with
  | DFin a, DFin b => Qeq_bool a b
  | DInf s, DInf s' => Bool.eqb s s'
  | DNaN, DNaN => true
  | _, _ => false
  end.

(** [1 - percentage_threshold/100]. *)
Definition threshold_factor (t : Q) : double :=
  dsub (DFin 1) (ddiv_by (DFin t) 100).

(** [median * (1 - percentage_threshold/100)], as lines 87 and 88 evaluate
    it. *)
Definition cutoff_double (m : double) (t : Q) : double :=
  dmul m (threshold_factor t).

(** The groupby median in doubles: the middle value, or the sum of the two
    middle values, rounded, divided by 2. *)
Definition median_double (l : list Q) : double :=
  let s := sort Qle_bool l in
  let n := List.length l in
  if Nat.even n
  then ddiv_by (dadd (DFin (nth (n / 2) s 0)) (DFin (nth (n / 2 - 1) s 0))) 2
  else DFin (nth (n / 2) s 0).


(** ** The detector over an arithmetic

    [identify_outliers] once more, word for word, with the two places where
    numbers are computed left to an arithmetic: the median of a group and
    the test [v < median * (1 - percentage_threshold/100)].  With the exact
    arithmetic it is [identify_outliers] above; with the arithmetic of
    doubles it is the detector as the interpreter runs it on a table of
    doubles. *)

Record Arithmetic : Type := {
  number : Type;
  median_in : list Q -> number;
  below_in : Q -> number -> Q -> bool
}.

Definition exact_arithmetic : Arithmetic := {|
  number := Q;
  median_in := median;
  below_in := fun v m t => Qltb v (m * (1 - t / 100))
|}.

Definition double_arithmetic : Arithmetic := {|
  number := double;
  median_in := median_double;
  below_in := fun v m t => dlt v (cutoff_double m t)
|}.

Definition groupby_run_median_in (A : Arithmetic) (m : Metric) (class_df : DataFrame)
  : Series Z (number A) :=
  map (fun run => (run, median_in A (map (column m) (run_frame run class_df))))
      (group_keys Z.eqb Z.leb (map run_number class_df)).

Definition run_step_in (A : Arithmetic)
    (median_iops median_throughput : Series Z (number A))
    (osd_data : DataFrame) (percentage_threshold : Q)
    (underperforming_runs : nat) (run : Z) : result nat :=
  match run_frame run osd_data with
  | [] => ret underperforming_runs
  | first :: _ =>
      mi <- series_get median_iops run ;;
      if below_in A (iops first) mi percentage_threshold
      then ret (S underperforming_runs)
      else
        mt <- series_get median_throughput run ;;
        if below_in A (bytes_per_sec first) mt percentage_threshold
        then ret (S underperforming_runs)
        else ret underperforming_runs
  end.

Definition underperforming_runs_in (A : Arithmetic) (df class_df : DataFrame)
    (median_iops median_throughput : Series Z (number A))
    (percentage_threshold : Q) (osd : string) : result nat :=
  let osd_data := osd_frame osd class_df in
  foldM (run_step_in A median_iops median_throughput osd_data percentage_threshold)
        (run_numbers df) 0%nat.

Definition osd_step_in (A : Arithmetic) (df class_df : DataFrame)
    (median_iops median_throughput : Series Z (number A))
    (percentage_threshold : Q) (total_runs : nat)
    (poor_performing_counts : dict nat) (osd : string) : result (dict nat) :=
  n <- underperforming_runs_in A df class_df median_iops median_throughput
         percentage_threshold osd ;;
  if majority n total_runs
  then ret (dict_set poor_performing_counts osd n)
  else ret poor_performing_counts.

Definition poor_performing_counts_in (A : Arithmetic) (df : DataFrame)
    (percentage_threshold : Q) (dc : string) : result (dict nat) :=
  let class_df := class_frame dc df in
  let median_iops := groupby_run_median_in A Iops class_df in
  let median_throughput := groupby_run_median_in A BytesPerSec class_df in
  let total_runs := List.length (run_numbers df) in
  foldM (osd_step_in A df class_df median_iops median_throughput
           percentage_threshold total_runs)
        (unique String.eqb (map osd_id class_df)) [].

Definition class_step_in (A : Arithmetic) (df : DataFrame) (percentage_threshold : Q)
    (outliers : dict (list string)) (dc : string) : result (dict (list string)) :=
  counts <- poor_performing_counts_in A df percentage_threshold dc ;;
  match counts with
  | [] => ret outliers
  | _ :: _ => ret (dict_set outliers dc (dict_keys counts))
  end.

Definition identify_outliers_in (A : Arithmetic) (df : DataFrame)
    (percentage_threshold : Q) : result (dict (list string)) :=
  foldM (class_step_in A df percentage_threshold)
        (unique String.eqb (map device_class df)) [].







(** Two hdd devices at 1000 iops and B at 820, over two runs. *)
Definition at_the_cutoff : DataFrame :=
  [ row "hdd" "A" 1 5000 1000; row "hdd" "D" 1 5000 1000; row "hdd" "B" 1 5000 820;
    row "hdd" "A" 2 5000 1000; row "hdd" "D" 2 5000 1000; row "hdd" "B" 2 5000 820 ].


(** [ssd_pair] with one more byte per second on the second device. *)
Definition ssd_pair_plus_one : DataFrame :=
  [ row "ssd" "S1" 1 1000 10; row "ssd" "S2" 1 2001 20; row "hdd" "H1" 2 500 5 ].

(** * Properties *)

(** ** Formatting at work *)

Example format_3000 : bytes_to_human_readable (Fin 3000) = "2.93 KB/s".
Proof. reflexivity. Qed.

Example format_nan : bytes_to_human_readable NaN = "nan B/s".
Proof. reflexivity. Qed.

Example format_beyond_last_unit :
  bytes_to_human_readable (Fin (5 * 1024 * 1024 * 1024 * 1024 * 1024)) = "5120.00 TB/s".
Proof. vm_compute. reflexivity. Qed.

Example format_root : bytes_to_human_readable (Root 2) = "1.41 B/s".
Proof. vm_compute. reflexivity. Qed.

Example round_ties_to_even : round2 (Fin (1125 # 1000)) = Fin (112 # 100).
Proof. vm_compute. reflexivity. Qed.

(** ** Doubles at work *)

Example double_of_15_hundredths :
  double_eqb (round_to_double (15 # 100))
             (DFin (5404319552844595 # 36028797018963968)) = true.
Proof. vm_compute. reflexivity. Qed.

Example cutoff_of_75_at_15 :
  double_eqb (cutoff_double (DFin 75) 15) (DFin (6375 # 100)) = true.
Proof. vm_compute. reflexivity. Qed.

Example cutoff_of_1000_at_18 :
  double_eqb (cutoff_double (DFin 1000) 18)
             (DFin (7212796278210561 # 8796093022208)) = true.
Proof. vm_compute. reflexivity. Qed.

Example median_of_two_is_rounded :
  double_eqb (median_double [3602879701896397 # 36028797018963968;
                             3602879701896397 # 18014398509481984])
             (DFin (1351079888211149 # 9007199254740992)) = true.
Proof. vm_compute. reflexivity. Qed.

Example product_overflows :
  double_eqb (dmul (DFin (inject_Z (2 ^ 1000))) (DFin (inject_Z (2 ^ 24)))) (DInf false)
  = true.
Proof. vm_compute. reflexivity. Qed.

Example half_of_least_double_is_zero :
  double_eqb (round_to_double (1 # Z.to_pos (2 ^ 1075))) (DFin 0) = true.
Proof. vm_compute. reflexivity. Qed.

(** ** Rationals, lists, sorting *)

Lemma Qltb_iff (x y : Q) : Qltb x y = true <-> x < y.
Proof.
  unfold Qltb. rewrite negb_true_iff. split; intros H.
  - apply Qnot_le_lt. intros Hle. apply Qle_bool_iff in Hle. congruence.
  - destruct (Qle_bool y x) eqn:E; [|reflexivity].
    apply Qle_bool_iff in E. exfalso. apply (Qlt_not_le _ _ H E).
Qed.

Lemma Qltb_false_iff (x y : Q) : Qltb x y = false <-> ~ x < y.
Proof.
  rewrite <- Qltb_iff. destruct (Qltb x y); split; intros; congruence.
Qed.

Section Unique.
Context {A : Type} (eqb : A -> A -> bool).
Hypothesis eqb_spec : forall a b, eqb a b = true <-> a = b.

Lemma unique_In (x : A) (l : list A) : In x (unique eqb l) <-> In x l.
Proof.
  induction l as [|a l IH]; simpl; [tauto|].
  rewrite filter_In, IH, negb_true_iff.
  destruct (eqb a x) eqn:E.
  - apply eqb_spec in E. subst. split; intros; auto. 
  - split; [intros [H|[H _]]; auto|].
    intros [H|H]; [auto|right; auto].
Qed.

Lemma unique_NoDup (l : list A) : NoDup (unique eqb l).
Proof.
  induction l as [|a l IH]; simpl; constructor.
  - rewrite filter_In, negb_true_iff. intros [_ H].
    assert (eqb a a = true) by (apply eqb_spec; reflexivity). congruence.
  - apply NoDup_filter, IH.
Qed.
End Unique.

Section Sort.
Context {A : Type} (leb : A -> A -> bool).

Lemma insert_perm (x : A) (l : list A) : Permutation (insert leb x l) (x :: l).
Proof.
  induction l as [|y l IH]; simpl; [reflexivity|].
  destruct (leb x y); [reflexivity|].
  rewrite IH. apply perm_swap.
Qed.

Lemma sort_perm (l : list A) : Permutation (sort leb l) l.
Proof.
  induction l as [|x l IH]; simpl; [reflexivity|].
  rewrite insert_perm. constructor. exact IH.
Qed.

Lemma sort_In (x : A) (l : list A) : In x (sort leb l) <-> In x l.
Proof.
  split; apply Permutation_in; [|symmetry]; apply sort_perm.
Qed.

Hypothesis leb_total : forall x y, leb x y = false -> leb y x = true.

Lemma insert_sorted (x : A) (l : list A) :
  Sorted (fun a b => leb a b = true) l ->
  Sorted (fun a b => leb a b = true) (insert leb x l).
Proof.
  induction l as [|y l IH]; simpl; intros Hs.
  - repeat constructor.
  - destruct (leb x y) eqn:E.
    + constructor; [exact Hs | constructor; exact E].
    + inversion Hs as [|? ? Hl Hy]; subst. constructor; [apply IH; exact Hl|].
      destruct l as [|z l]; simpl.
      * constructor. apply leb_total. exact E.
      * destruct (leb x z); constructor.
        -- apply leb_total. exact E.
        -- inversion Hy. assumption.
Qed.

Lemma sort_sorted (l : list A) : Sorted (fun a b => leb a b = true) (sort leb l).
Proof.
  induction l as [|x l IH]; simpl; [constructor | apply insert_sorted, IH].
Qed.
End Sort.

(** The values [median] picks from are in ascending order. *)
Lemma median_input_sorted (l : list Q) : Sorted Qle (sort Qle_bool l).
Proof.
  assert (H : Sorted (fun a b => Qle_bool a b = true) (sort Qle_bool l)).
  { apply sort_sorted. intros x y E. apply Qle_bool_iff.
    apply Qlt_le_weak. apply Qltb_iff. unfold Qltb. rewrite E. reflexivity. }
  induction H as [|a s Hs IH Hd]; constructor; [exact IH|].
  destruct Hd as [|b s' Hab]; constructor. apply Qle_bool_iff. exact Hab.
Qed.


Lemma label_eqb_spec (a b : Label) : label_eqb a b = true <-> a = b.
Proof.
  destruct a, b; simpl;
    rewrite ?String.eqb_eq, ?Z.eqb_eq;
    split; intros H; try discriminate; try (inversion H; reflexivity);
    subst; reflexivity.
Qed.

Lemma group_keys_In {A} (eqb leb : A -> A -> bool)
    (eqb_spec : forall a b, eqb a b = true <-> a = b) (x : A) (l : list A) :
  In x (group_keys eqb leb l) <-> In x l.
Proof.
  unfold group_keys. rewrite sort_In. apply unique_In, eqb_spec.
Qed.


(** ** Loops in the error monad *)

Lemma mapM_map {A B C} (f : B -> result C) (g : A -> B) (h : A -> C) (l : list A) :
  (forall x, In x l -> f (g x) = Ok (h x)) ->
  mapM f (map g l) = Ok (map h l).
Proof.
  induction l as [|x l IH]; intros Hf; simpl; [reflexivity|].
  rewrite (Hf x (or_introl eq_refl)), IH; [reflexivity|].
  intros y Hy. apply Hf. right. exact Hy.
Qed.

Lemma foldM_count {B} (step : nat -> B -> result nat) (p : B -> bool) (l : list B) :
  (forall n x, step n x = Ok (if p x then S n else n)) ->
  forall n, foldM step l n = Ok (n + List.length (filter p l))%nat.
Proof.
  intros Hstep. induction l as [|x l IH]; intros n; simpl.
  - f_equal. lia.
  - rewrite Hstep. simpl. rewrite IH. destruct (p x); simpl; f_equal; lia.
Qed.

Lemma dict_set_fresh {V} (d : dict V) (k : string) (v : V) :
  ~ In k (dict_keys d) -> dict_set d k v = d ++ [(k, v)].
Proof.
  induction d as [|[k' v'] d IH]; simpl; intros Hk; [reflexivity|].
  destruct (String.eqb k' k) eqn:E.
  - apply String.eqb_eq in E. tauto.
  - rewrite IH; [reflexivity|tauto].
Qed.

(** A loop that assigns [v x] under each key [x] that passes [p], over
    distinct keys not yet in the dict, appends them in order. *)
Lemma foldM_dict {V} (step : dict V -> string -> result (dict V))
    (p : string -> bool) (v : string -> V) (l : list string) :
  (forall d x, step d x = Ok (if p x then dict_set d x (v x) else d)) ->
  NoDup l ->
  forall d, (forall x, In x l -> ~ In x (dict_keys d)) ->
  foldM step l d = Ok (d ++ map (fun x => (x, v x)) (filter p l)).
Proof.
  intros Hstep. induction l as [|x l IH]; intros Hnd d Hd; simpl.
  - rewrite app_nil_r. reflexivity.
  - inversion Hnd as [|? ? Hx Hnd']; subst.
    rewrite Hstep. simpl. destruct (p x) eqn:Hp.
    + rewrite dict_set_fresh by (apply Hd; left; reflexivity).
      rewrite IH; [simpl; rewrite <- app_assoc; reflexivity | exact Hnd' |].
      intros y Hy. unfold dict_keys. rewrite map_app, in_app_iff. simpl.
      intros [H|[H|[]]]; [apply (Hd y); [right; exact Hy | exact H]|].
      subst. contradiction.
    + apply IH; [exact Hnd'|]. intros y Hy. apply Hd. right. exact Hy.
Qed.

Lemma dict_get_map {V} (f : string -> V) (l : list string) (k : string) :
  dict_get (map (fun x => (x, f x)) l) k
  = if existsb (String.eqb k) l then Some (f k) else None.
Proof.
  induction l as [|x l IH]; simpl; [reflexivity|].
  rewrite (String.eqb_sym k x).
  destruct (String.eqb x k) eqn:E; simpl; [|exact IH].
  apply String.eqb_eq in E. subst. reflexivity.
Qed.

Lemma existsb_eqb_In (k : string) (l : list string) :
  existsb (String.eqb k) l = true <-> In k l.
Proof.
  rewrite existsb_exists. split.
  - intros [x [Hx E]]. apply String.eqb_eq in E. subst. exact Hx.
  - intros H. exists k. split; [exact H | apply String.eqb_refl].
Qed.

(** ** The per-run medians are there when they are looked up *)

Lemma series_find_map {V} (f : Z -> V) (keys : list Z) (run : Z) :
  In run keys -> series_find (map (fun r => (r, f r)) keys) run = Some (f run).
Proof.
  induction keys as [|k keys IH]; simpl; [tauto|].
  intros H. destruct (Z.eqb_spec k run) as [->|Hne]; [reflexivity|].
  apply IH. destruct H; [contradiction|assumption].
Qed.

Lemma Z_eqb_true_iff (a b : Z) : (a =? b)%Z = true <-> a = b.
Proof. apply Z.eqb_eq. Qed.

Lemma median_lookup (m : Metric) (class_df : DataFrame) (run : Z) (s : Sample) :
  In s class_df -> run_number s = run ->
  series_get (groupby_run_median m class_df) run
  = Ok (median (map (column m) (run_frame run class_df))).
Proof.
  intros Hs Hrun. unfold series_get, groupby_run_median.
  rewrite (series_find_map
             (fun r => median (map (column m) (run_frame r class_df)))).
  - reflexivity.
  - apply group_keys_In; [exact Z_eqb_true_iff|].
    rewrite <- Hrun. apply in_map. exact Hs.
Qed.

Lemma run_step_closed (df : DataFrame) (t : Q) (dc osd : string) (n : nat) (run : Z) :
  run_step (groupby_run_median Iops (class_frame dc df))
           (groupby_run_median BytesPerSec (class_frame dc df))
           (osd_frame osd (class_frame dc df)) t n run
  = Ok (if underperforms df t dc osd run then S n else n).
Proof.
  unfold run_step, underperforms, device_run, cutoff, class_median.
  destruct (run_frame run (osd_frame osd (class_frame dc df))) as [|first rest] eqn:E;
    [reflexivity|].
  assert (Hin : In first (run_frame run (osd_frame osd (class_frame dc df))))
    by (rewrite E; left; reflexivity).
  unfold run_frame, osd_frame in Hin. rewrite !filter_In in Hin.
  destruct Hin as [[Hcls _] Hrun]. apply Z.eqb_eq in Hrun.
  rewrite !(median_lookup _ _ _ first Hcls Hrun). simpl.
  destruct (Qltb (iops first) _); [reflexivity|]. simpl.
  destruct (Qltb (bytes_per_sec first) _); reflexivity.
Qed.

Lemma runs_below_closed (df : DataFrame) (t : Q) (dc osd : string) :
  runs_below df t dc osd = Ok (count_below df t dc osd).
Proof.
  unfold runs_below, underperforming_runs, count_below.
  rewrite (foldM_count _ (underperforms df t dc osd)); [reflexivity|].
  intros n run. apply run_step_closed.
Qed.

Lemma poor_performing_counts_closed (df : DataFrame) (t : Q) (dc : string) :
  poor_performing_counts df t dc
  = Ok (map (fun osd => (osd, count_below df t dc osd)) (flagged_osds df t dc)).
Proof.
  unfold poor_performing_counts, flagged_osds, class_osds.
  rewrite (foldM_dict _
             (fun osd => majority (count_below df t dc osd) (total_runs df))
             (fun osd => count_below df t dc osd)).
  - reflexivity.
  - intros d osd. unfold osd_step.
    change (underperforming_runs df (class_frame dc df)
              (groupby_run_median Iops (class_frame dc df))
              (groupby_run_median BytesPerSec (class_frame dc df)) t osd)
      with (runs_below df t dc osd).
    rewrite runs_below_closed. simpl. fold (total_runs df).
    destruct (majority _ _); reflexivity.
  - apply unique_NoDup, String.eqb_eq.
  - intros x _ [].
Qed.

Lemma class_step_closed (df : DataFrame) (t : Q) (outliers : dict (list string))
    (dc : string) :
  class_step df t outliers dc
  = Ok (if negb (is_nil (flagged_osds df t dc))
        then dict_set outliers dc (flagged_osds df t dc) else outliers).
Proof.
  unfold class_step. rewrite poor_performing_counts_closed. simpl.
  destruct (flagged_osds df t dc) as [|o l] eqn:E; simpl; [reflexivity|].
  unfold dict_keys. simpl. rewrite map_map. simpl. rewrite map_id. reflexivity.
Qed.

(** The detector returns, and returns the closed form. *)
Lemma identify_outliers_closed (df : DataFrame) (t : Q) :
  identify_outliers df t = Ok (outliers_closed df t).
Proof.
  unfold identify_outliers, outliers_closed.
  rewrite (foldM_dict _
             (fun dc => negb (is_nil (flagged_osds df t dc)))
             (fun dc => flagged_osds df t dc)).
  - reflexivity.
  - intros d dc. apply class_step_closed.
  - apply unique_NoDup, String.eqb_eq.
  - intros x _ [].
Qed.

(** ** The aggregator returns, and returns the closed form *)

Lemma apply_column_rows (f : cell -> result cell) (c : ColumnKey)
    (R R' : Label -> StatsRow) (keys : list Label) :
  (forall k, (v <- row_get (R k) c ;; v' <- f v ;; ret (row_set (R k) c v')) = Ok (R' k)) ->
  apply_column f c (map (fun k => (k, R k)) keys) = Ok (map (fun k => (k, R' k)) keys).
Proof.
  intros H. unfold apply_column.
  apply (mapM_map _ (fun k => (k, R k)) (fun k => (k, R' k))).
  intros k _. simpl. specialize (H k). simpl in H.
  destruct (row_get (R k) c) as [v|e]; [|discriminate].
  destruct (f v) as [v'|e]; [|discriminate].
  inversion H. reflexivity.
Qed.

Lemma calculate_basic_stats_closed (g : KeyColumn) (w : World) :
  calculate_basic_stats g w
  = (Ok (stats_closed (table w) g),
     {| table := table w; pd_options := display_options (pd_options w) |}).
Proof.
  unfold calculate_basic_stats, groupby_agg.
  cbn [bind ret Monad_Py Monad_result read_table lift foldM all_stats].
  do 5 (erewrite apply_column_rows; [|intros k; reflexivity]).
  cbn [bind ret Monad_Py Monad_result lift foldM].
  do 5 (erewrite apply_column_rows; [|intros k; reflexivity]).
  cbn [bind ret Monad_Py Monad_result set_option table pd_options].
  unfold stats_closed, display_options.
  f_equal.
Qed.

Lemma calculate_aggregate_stats_closed (w : World) :
  calculate_aggregate_stats w = (Ok (totals_closed (table w)), w).
Proof.
  unfold calculate_aggregate_stats, groupby_sum.
  cbn [bind ret Monad_Py Monad_result read_table lift].
  erewrite mapM_map; [|intros k _; reflexivity].
  erewrite mapM_map; [|intros k _; reflexivity].
  reflexivity.
Qed.

Lemma frame_row_closed (df : DataFrame) (g : KeyColumn) (k : Label) :
  In k (map (key_of g) df) ->
  frame_row (stats_closed df g) k
  = Some (map (fun c : ColumnKey =>
                 (c, reported_cell c (map (column (fst c)) (group_rows g k df))))
              agg_columns).
Proof.
  intros Hk. unfold frame_row, stats_closed.
  assert (Hin : In k (group_keys label_eqb label_leb (map (key_of g) df)))
    by (apply group_keys_In; [exact label_eqb_spec | exact Hk]).
  induction (group_keys label_eqb label_leb (map (key_of g) df)) as [|k' l IH];
    simpl in *; [contradiction|].
  destruct (label_eqb k' k) eqn:E.
  - apply label_eqb_spec in E. subst. reflexivity.
  - apply IH. destruct Hin as [->|H]; [|exact H].
    assert (label_eqb k k = true) by (apply label_eqb_spec; reflexivity).
    congruence.
Qed.

Lemma row_get_closed (values : Metric -> list Q) (m : Metric) (st : Stat) :
  row_get (map (fun c : ColumnKey => (c, reported_cell c (values (fst c)))) agg_columns)
          (m, st)
  = Ok (reported_cell (m, st) (values m)).
Proof.
  destruct m, st; reflexivity.
Qed.

(** ** Who is flagged *)

Lemma majority_iff (n total : nat) :
  majority n total = true
  <-> inject_Z (Z.of_nat total) / 2 < inject_Z (Z.of_nat n).
Proof. apply Qltb_iff. Qed.

Lemma half_lt_iff (n total : nat) :
  inject_Z (Z.of_nat total) / 2 < inject_Z (Z.of_nat n) <-> (total < 2 * n)%nat.
Proof.
  unfold Qlt, Qdiv, Qmult, Qinv, inject_Z. simpl. split; intros H; lia.
Qed.

Lemma majority_nat (n total : nat) :
  majority n total = true <-> (total < 2 * n)%nat.
Proof. rewrite majority_iff. apply half_lt_iff. Qed.

Lemma majority_mono (n n' total : nat) :
  (n <= n')%nat -> majority n total = true -> majority n' total = true.
Proof. rewrite !majority_nat. lia. Qed.

Lemma class_osds_In (df : DataFrame) (dc osd : string) :
  In osd (class_osds df dc)
  <-> exists s, In s df /\ device_class s = dc /\ osd_id s = osd.
Proof.
  unfold class_osds, class_frame.
  rewrite unique_In by exact String.eqb_eq.
  rewrite in_map_iff. split.
  - intros [s [Ho Hs]]. apply filter_In in Hs. destruct Hs as [Hs Hc].
    apply String.eqb_eq in Hc. exists s. auto.
  - intros [s [Hs [Hc Ho]]]. exists s. split; [exact Ho|].
    apply filter_In. split; [exact Hs | apply String.eqb_eq; exact Hc].
Qed.

Lemma flagged_osds_class (df : DataFrame) (t : Q) (dc osd : string) :
  In osd (flagged_osds df t dc) -> In dc (unique String.eqb (map device_class df)).
Proof.
  unfold flagged_osds. rewrite filter_In. intros [H _].
  apply class_osds_In in H. destruct H as [s [Hs [Hc _]]].
  apply unique_In; [exact String.eqb_eq|]. subst dc. apply in_map. exact Hs.
Qed.

Lemma outliers_closed_get (df : DataFrame) (t : Q) (dc : string) :
  dict_get (outliers_closed df t) dc
  = match flagged_osds df t dc with
    | [] => None
    | l => Some l
    end.
Proof.
  unfold outliers_closed. rewrite dict_get_map.
  destruct (existsb (String.eqb dc) _) eqn:E.
  - apply existsb_eqb_In in E. apply filter_In in E. destruct E as [_ E].
    destruct (flagged_osds df t dc); [discriminate|reflexivity].
  - destruct (flagged_osds df t dc) as [|o l] eqn:F; [reflexivity|].
    assert (H : existsb (String.eqb dc)
                  (filter (fun dc => negb (is_nil (flagged_osds df t dc)))
                          (unique String.eqb (map device_class df))) = true).
    { apply existsb_eqb_In. apply filter_In. split.
      - apply (flagged_osds_class df t dc o). rewrite F. left. reflexivity.
      - rewrite F. reflexivity. }
    congruence.
Qed.

Lemma flagged_closed (df : DataFrame) (t : Q) (dc osd : string) :
  flagged (outliers_closed df t) dc osd <-> In osd (flagged_osds df t dc).
Proof.
  unfold flagged. rewrite outliers_closed_get. split.
  - intros [l [Hl Hin]]. destruct (flagged_osds df t dc); [discriminate|].
    inversion Hl. subst. exact Hin.
  - intros Hin. exists (flagged_osds df t dc). split; [|exact Hin].
    destruct (flagged_osds df t dc); [destruct Hin|reflexivity].
Qed.

Lemma device_run_absent (df : DataFrame) (dc osd : string) (run : Z) :
  ~ In osd (class_osds df dc) -> device_run df dc osd run = [].
Proof.
  intros Hno. unfold device_run, run_frame, osd_frame.
  destruct (filter _ (filter _ (class_frame dc df))) as [|s l] eqn:E; [reflexivity|].
  exfalso. apply Hno.
  assert (Hs : In s (s :: l)) by (left; reflexivity).
  rewrite <- E in Hs. rewrite !filter_In in Hs. destruct Hs as [[Hs Ho] _].
  apply String.eqb_eq in Ho. unfold class_osds.
  apply unique_In; [exact String.eqb_eq|]. rewrite <- Ho. apply in_map. exact Hs.
Qed.

Lemma count_below_absent (df : DataFrame) (t : Q) (dc osd : string) :
  ~ In osd (class_osds df dc) -> count_below df t dc osd = 0%nat.
Proof.
  intros Hno. unfold count_below.
  replace (filter (underperforms df t dc osd) (run_numbers df)) with (@nil Z);
    [reflexivity|].
  symmetry. induction (run_numbers df) as [|r l IH]; simpl; [reflexivity|].
  unfold underperforms at 1. rewrite (device_run_absent _ _ _ _ Hno). exact IH.
Qed.

Lemma flagged_iff_majority (df : DataFrame) (t : Q) (dc osd : string) :
  flagged (outliers_closed df t) dc osd
  <-> majority (count_below df t dc osd) (total_runs df) = true.
Proof.
  rewrite flagged_closed. unfold flagged_osds. rewrite filter_In.
  split; [tauto|]. intros H. split; [|exact H].
  destruct (in_dec string_dec osd (class_osds df dc)) as [Hin|Hno]; [exact Hin|].
  rewrite (count_below_absent _ _ _ _ Hno) in H.
  apply majority_nat in H. lia.
Qed.

(** C1.  The detector returns, and lists a device under its class exactly
    when the count its loop over runs reached is strictly greater than half
    of [total_runs], the number of distinct run numbers of the whole table
    (whatever the number of runs the device took part in).  With four runs
    in the table a count of 2 does not flag the device and a count of 3
    does. *)
Theorem flagged_iff_over_half_of_global_runs (df : DataFrame) (t : Q) (dc osd : string) :
  exists outliers n,
    identify_outliers df t = Ok outliers
    /\ runs_below df t dc osd = Ok n
    /\ (flagged outliers dc osd
        <-> inject_Z (Z.of_nat (total_runs df)) / 2 < inject_Z (Z.of_nat n))
    /\ (total_runs df = 4%nat ->
        (n = 2%nat -> ~ flagged outliers dc osd)
        /\ (n = 3%nat -> flagged outliers dc osd)).
Proof.
  exists (outliers_closed df t), (count_below df t dc osd).
  split; [apply identify_outliers_closed|].
  split; [apply runs_below_closed|].
  split.
  - rewrite flagged_iff_majority. apply majority_iff.
  - intros H4. rewrite flagged_iff_majority, majority_nat, H4.
    split; intros ->; lia.
Qed.

Lemma flagged_iff_over_half_of_global_runs_witness :
  total_runs four_runs = 4%nat
  /\ runs_below four_runs 15 "hdd" "C" = Ok 2%nat
  /\ runs_below four_runs 15 "hdd" "B" = Ok 3%nat
  /\ exists outliers,
       identify_outliers four_runs 15 = Ok outliers
       /\ ~ flagged outliers "hdd" "C"
       /\ flagged outliers "hdd" "B".
Proof.
  split; [reflexivity|].
  split; [vm_compute; reflexivity|].
  split; [vm_compute; reflexivity|].
  destruct (flagged_iff_over_half_of_global_runs four_runs 15 "hdd" "C")
    as (o & n & Ho & Hn & _ & H4).
  destruct (flagged_iff_over_half_of_global_runs four_runs 15 "hdd" "B")
    as (o' & n' & Ho' & Hn' & _ & H4').
  exists o. split; [exact Ho|].
  assert (E : o' = o) by congruence. subst o'.
  assert (En : n = 2%nat).
  { assert (R : runs_below four_runs 15 "hdd" "C" = Ok 2%nat) by (vm_compute; reflexivity).
    congruence. }
  assert (En' : n' = 3%nat).
  { assert (R : runs_below four_runs 15 "hdd" "B" = Ok 3%nat) by (vm_compute; reflexivity).
    congruence. }
  split.
  - apply (proj1 (H4 eq_refl) En).
  - apply (proj2 (H4' eq_refl) En').
Defined.

(** C10.  The detector returns on every table: whenever a device of a class
    has a sample in a run, so that the branch that reads the medians is
    taken, the class has a median of each metric under that run's label,
    and both lookups succeed. *)
Theorem median_lookups_never_fail (df : DataFrame) (t : Q) :
  (exists outliers, identify_outliers df t = Ok outliers)
  /\ forall dc osd run,
       device_run df dc osd run <> [] ->
       series_get (groupby_run_median Iops (class_frame dc df)) run
       = Ok (class_median Iops df dc run)
       /\ series_get (groupby_run_median BytesPerSec (class_frame dc df)) run
          = Ok (class_median BytesPerSec df dc run).
Proof.
  split; [exists (outliers_closed df t); apply identify_outliers_closed|].
  intros dc osd run Hne. unfold device_run in Hne.
  destruct (run_frame run (osd_frame osd (class_frame dc df))) as [|s l] eqn:E;
    [congruence|].
  assert (Hs : In s (s :: l)) by (left; reflexivity).
  rewrite <- E in Hs. unfold run_frame, osd_frame in Hs.
  rewrite !filter_In in Hs. destruct Hs as [[Hs _] Hr]. apply Z.eqb_eq in Hr.
  split; apply (median_lookup _ _ _ s Hs Hr).
Qed.

Lemma median_lookups_never_fail_witness :
  device_run lone_device "nvme" "N" 2 <> []
  /\ series_get (groupby_run_median Iops (class_frame "nvme" lone_device)) 2
     = Ok (class_median Iops lone_device "nvme" 2)
  /\ series_get (groupby_run_median BytesPerSec (class_frame "nvme" lone_device)) 2
     = Ok (class_median BytesPerSec lone_device "nvme" 2).
Proof.
  assert (H : device_run lone_device "nvme" "N" 2 <> []) by (vm_compute; discriminate).
  split; [exact H|].
  exact (proj2 (median_lookups_never_fail lone_device 15) "nvme" "N" 2%Z H).
Defined.

(** C4, as the code has it.  The detector has no check for an empty table:
    with no rows there is no device class to loop over, and it returns the
    empty mapping. *)
Theorem empty_table_gives_empty_mapping (t : Q) :
  identify_outliers [] t = Ok [].
Proof. reflexivity. Qed.

Lemma empty_table_does_not_raise :
  ~ exists e, identify_outliers [] 15 = Raise e.
Proof. intros [e H]. vm_compute in H. discriminate. Qed.

(** ** The two-device scenario *)



(** ** Either metric alone counts *)

Lemma filter_length_le {A} (p q : A -> bool) (l : list A) :
  (forall x, p x = true -> q x = true) ->
  (List.length (filter p l) <= List.length (filter q l))%nat.
Proof.
  intros H. induction l as [|x l IH]; simpl; [lia|].
  destruct (p x) eqn:P.
  - rewrite (H x P). simpl. lia.
  - destruct (q x); simpl; lia.
Qed.

(** ** The detector over an arithmetic

    The closed form again, for whichever arithmetic the medians and the
    comparison are computed in. *)

Lemma exact_arithmetic_is_the_idealisation (df : DataFrame) (t : Q) :
  identify_outliers_in exact_arithmetic df t = identify_outliers df t.
Proof. reflexivity. Qed.

Section OverAnArithmetic.
Variable A : Arithmetic.






End OverAnArithmetic.






(** At a threshold of 18 the doubles give 1000 the cutoff
    820.0000000000001, so a device at 820 is counted; with exact
    arithmetic the cutoff is 820 and it is not. *)
Lemma idealisation_and_doubles_part_at_the_cutoff :
  identify_outliers_in double_arithmetic at_the_cutoff 18 = Ok [("hdd", ["B"])]
  /\ identify_outliers at_the_cutoff 18 = Ok [].
Proof. split; vm_compute; reflexivity. Qed.

(** ** A class with a single device *)

Lemma filter_all {A} (p : A -> bool) (l : list A) :
  (forall x, In x l -> p x = true) -> filter p l = l.
Proof.
  induction l as [|x l IH]; simpl; intros H; [reflexivity|].
  rewrite (H x (or_introl eq_refl)), IH; [reflexivity|].
  intros y Hy. apply H. right. exact Hy.
Qed.

Lemma NoDup_keys_filter {A K} (key : A -> K) (keep : A -> bool) (rows : list A)
    (Hnd : NoDup (map key rows)) :
  NoDup (map key (filter keep rows)).
Proof.
  induction rows as [|x rows IH]; simpl; [constructor|].
  simpl in Hnd. inversion Hnd as [|? ? Hx Hl]; subst.
  destruct (keep x); simpl; [constructor|]; auto.
  rewrite in_map_iff in *. intros [y [Hy Hin]]. apply Hx.
  exists y. split; [exact Hy|]. apply filter_In in Hin. tauto.
Qed.

Lemma constant_key_short {A B} (f : A -> B) (k : B) (l : list A) :
  NoDup (map f l) -> (forall x, In x l -> f x = k) ->
  forall x rest, l = x :: rest -> rest = [].
Proof.
  intros Hnd Hk x rest ->. destruct rest as [|y rest]; [reflexivity|].
  exfalso. simpl in Hnd. inversion Hnd as [|? ? Hx _]; subst. apply Hx.
  left. rewrite (Hk y), (Hk x); simpl; auto.
Qed.

Lemma median_single (v : Q) : median [v] = v.
Proof. reflexivity. Qed.

Lemma not_below_own_cutoff (v t : Q) :
  0 <= v -> 0 <= t -> Qltb v (v * (1 - t / 100)) = false.
Proof.
  intros Hv Ht. apply Qltb_false_iff. intros H.
  assert (P : 0 <= v * (t / 100)).
  { apply Qmult_le_0_compat; [exact Hv|]. apply Qle_shift_div_l; lra. }
  setoid_replace (v * (1 - t / 100)) with (v - v * (t / 100)) in H by ring.
  lra.
Qed.

Lemma single_device_run (df : DataFrame) (dc o : string) (run : Z)
    (first : Sample) (rest : list Sample) :
  NoDup (map (fun s => (osd_id s, run_number s)) df) ->
  class_osds df dc = [o] ->
  device_run df dc o run = first :: rest ->
  run_frame run (class_frame dc df) = [first].
Proof.
  intros Hnd Hone E.
  assert (Hall : forall s, In s (class_frame dc df) -> osd_id s = o).
  { intros s Hs.
    assert (Ho : In (osd_id s) (class_osds df dc)).
    { unfold class_osds. apply unique_In; [exact String.eqb_eq|].
      apply in_map. exact Hs. }
    rewrite Hone in Ho. destruct Ho as [Ho|[]]. auto. }
  unfold device_run, osd_frame in E.
  rewrite (filter_all _ (class_frame dc df)) in E
    by (intros s Hs; apply String.eqb_eq; apply Hall; exact Hs).
  rewrite E. f_equal.
  apply (constant_key_short (fun s => (osd_id s, run_number s)) (o, run)
           (run_frame run (class_frame dc df))) with (x := first).
  - unfold run_frame, class_frame. apply NoDup_keys_filter, NoDup_keys_filter, Hnd.
  - intros s Hs. unfold run_frame in Hs. apply filter_In in Hs.
    destruct Hs as [Hs Hr]. apply Z.eqb_eq in Hr. rewrite (Hall s Hs), Hr.
    reflexivity.
  - exact E.
Qed.

Lemma single_device_not_below (df : DataFrame) (t : Q) (dc o : string) (run : Z) :
  0 <= t -> well_formed df -> class_osds df dc = [o] ->
  underperforms df t dc o run = false.
Proof.
  intros Ht [Hpos Hnd] Hone. unfold underperforms, cutoff, class_median.
  destruct (device_run df dc o run) as [|first rest] eqn:E; [reflexivity|].
  rewrite (single_device_run df dc o run first rest Hnd Hone E). simpl map.
  rewrite !median_single.
  assert (Hin : In first df).
  { assert (H : In first (device_run df dc o run)) by (rewrite E; left; reflexivity).
    unfold device_run, run_frame, osd_frame, class_frame in H.
    rewrite !filter_In in H. tauto. }
  destruct (Hpos first Hin) as [Hb Hi]. unfold column.
  rewrite (not_below_own_cutoff _ _ Hi Ht), (not_below_own_cutoff _ _ Hb Ht).
  reflexivity.
Qed.

(** C6.  On a table that keeps the invariants of the data model
    (non-negative metrics, at most one sample of a device per run) and for a
    non-negative threshold, a device class with exactly one distinct osd_id
    has no flagged device and is absent from the result: in every run the
    device takes part in, its iops and bytes_per_sec are the class medians
    of that run, no run is counted, and the count stays at 0. *)
Theorem single_device_class_not_flagged (df : DataFrame) (t : Q) (dc o : string) :
  0 <= t -> well_formed df -> class_osds df dc = [o] ->
  (exists outliers,
     identify_outliers df t = Ok outliers
     /\ dict_get outliers dc = None
     /\ forall osd, ~ flagged outliers dc osd)
  /\ runs_below df t dc o = Ok 0%nat
  /\ forall run first rest,
       device_run df dc o run = first :: rest ->
       iops first = class_median Iops df dc run
       /\ bytes_per_sec first = class_median BytesPerSec df dc run.
Proof.
  intros Ht Hwf Hone.
  assert (C0 : count_below df t dc o = 0%nat).
  { unfold count_below.
    assert (Z0 : List.length (filter (fun _ : Z => false) (run_numbers df)) = 0%nat)
      by (induction (run_numbers df); simpl; auto).
    assert (L := filter_length_le (underperforms df t dc o) (fun _ => false)
                   (run_numbers df)).
    rewrite Z0 in L. apply Nat.le_0_r. apply L.
    intros run H. rewrite (single_device_not_below df t dc o run Ht Hwf Hone) in H.
    discriminate. }
  assert (F : flagged_osds df t dc = []).
  { unfold flagged_osds. rewrite Hone. simpl. rewrite C0.
    destruct (majority 0 (total_runs df)) eqn:M; [|reflexivity].
    apply majority_nat in M. lia. }
  split; [|split].
  - exists (outliers_closed df t). split; [apply identify_outliers_closed|].
    split.
    + rewrite outliers_closed_get, F. reflexivity.
    + intros osd H. apply flagged_closed in H. rewrite F in H. destruct H.
  - rewrite runs_below_closed, C0. reflexivity.
  - intros run first rest E. unfold class_median.
    rewrite (single_device_run df dc o run first rest (proj2 Hwf) Hone E).
    split; reflexivity.
Qed.

Lemma lone_device_well_formed : well_formed lone_device.
Proof.
  split.
  - intros s Hs. simpl in Hs.
    repeat (destruct Hs as [<-|Hs]; [split; intro; discriminate|]).
    destruct Hs.
  - simpl. repeat constructor; simpl; intuition discriminate.
Qed.

Lemma single_device_class_not_flagged_witness :
  0 <= 15
  /\ well_formed lone_device
  /\ class_osds lone_device "nvme" = ["N"]
  /\ (exists outliers,
        identify_outliers lone_device 15 = Ok outliers
        /\ dict_get outliers "nvme" = None)
  /\ runs_below lone_device 15 "nvme" "N" = Ok 0%nat.
Proof.
  assert (Ht : 0 <= 15) by (intro; discriminate).
  destruct (single_device_class_not_flagged lone_device 15 "nvme" "N"
              Ht lone_device_well_formed eq_refl) as [[o [Ho [Hd _]]] [Hc _]].
  split; [exact Ht|].
  split; [exact lone_device_well_formed|].
  split; [reflexivity|].
  split; [exists o; split; assumption | exact Hc].
Defined.

(** ** The statistics frame *)





(** C9.  [calculate_basic_stats] returns on every table, and for a group
    of the table with fewer than 2 samples the standard deviation is the
    undefined value after the columns have been post-processed: NaN under
    iops, which rounding leaves as it is, and under bytes_per_sec the text
    the formatter makes of NaN. *)
Theorem std_of_small_group_is_nan (df : DataFrame) (g : KeyColumn)
    (opts : string -> OptVal) (k : Label) :
  In k (map (key_of g) df) ->
  (List.length (group_rows g k df) < 2)%nat ->
  exists stats r,
    fst (calculate_basic_stats g (mkWorld df opts)) = Ok stats
    /\ frame_row stats k = Some r
    /\ row_get r (Iops, Std) = Ok (CNum NaN)
    /\ row_get r (BytesPerSec, Std) = Ok (CStr (bytes_to_human_readable NaN))
    /\ bytes_to_human_readable NaN = "nan B/s".
Proof.
  intros Hk Hlen. exists (stats_closed df g). eexists.
  split; [rewrite calculate_basic_stats_closed; reflexivity|].
  split; [apply frame_row_closed; exact Hk|].
  rewrite !(row_get_closed (fun m => map (column m) (group_rows g k df))).
  unfold reported_cell. simpl fst. simpl snd.
  assert (S : forall m, aggregate Std (map (column m) (group_rows g k df)) = NaN).
  { intros m. destruct (group_rows g k df) as [|x [|y l]]; simpl in *;
      [reflexivity | reflexivity | lia]. }
  rewrite !S. repeat split; reflexivity.
Qed.

Lemma std_of_small_group_is_nan_witness :
  exists stats r,
    fst (calculate_basic_stats DeviceClass (mkWorld ssd_pair pandas_defaults)) = Ok stats
    /\ frame_row stats (LStr "hdd") = Some r
    /\ row_get r (Iops, Std) = Ok (CNum NaN)
    /\ row_get r (BytesPerSec, Std) = Ok (CStr "nan B/s").
Proof.
  assert (Hk : In (LStr "hdd") (map (key_of DeviceClass) ssd_pair))
    by (simpl; auto).
  assert (Hlen : (List.length (group_rows DeviceClass (LStr "hdd") ssd_pair) < 2)%nat)
    by (simpl; lia).
  destruct (std_of_small_group_is_nan ssd_pair DeviceClass pandas_defaults
              (LStr "hdd") Hk Hlen) as [stats [r [H1 [H2 [H3 [H4 H5]]]]]].
  exists stats, r. rewrite H5 in H4. auto.
Defined.

(** ** The per-run totals *)

Lemma totals_closed_keys (df : DataFrame) :
  map agg_key (totals_closed df) = pair_keys df.
Proof.
  unfold totals_closed. rewrite map_map.
  transitivity (map (fun k : string * Z => k) (pair_keys df)); [|apply map_id].
  apply map_ext. intros [dc run]. reflexivity.
Qed.





(** The text does not even determine the sum: totals of 3000 and of 3001
    come back as the same records. *)
Lemma records_do_not_determine_the_sum :
  sum (map bytes_per_sec (pair_rows ("ssd", 1%Z) ssd_pair)) == 3000
  /\ sum (map bytes_per_sec (pair_rows ("ssd", 1%Z) ssd_pair_plus_one)) == 3001
  /\ fst (calculate_aggregate_stats (mkWorld ssd_pair_plus_one pandas_defaults))
     = fst (calculate_aggregate_stats (mkWorld ssd_pair pandas_defaults)).
Proof. repeat split; vm_compute; reflexivity. Qed.

(** ** Effects on the world *)

(** C7, as the code has it.  [calculate_basic_stats] leaves the sample
    table as it is but is not free of side effects: it returns after having
    set four global display options of pandas (max_columns, width and
    max_rows to None, expand_frame_repr to False), and leaves every other
    option as it is.  [calculate_aggregate_stats] leaves the whole world,
    table and options, as it is. *)
Theorem aggregator_effects (g : KeyColumn) (w : World) :
  let w' := snd (calculate_basic_stats g w) in
  table w' = table w
  /\ pd_options w' "display.max_columns" = ONone
  /\ pd_options w' "display.width" = ONone
  /\ pd_options w' "display.expand_frame_repr" = OBool false
  /\ pd_options w' "display.max_rows" = ONone
  /\ (forall k,
        k <> "display.max_columns" -> k <> "display.width" ->
        k <> "display.expand_frame_repr" -> k <> "display.max_rows" ->
        pd_options w' k = pd_options w k)
  /\ snd (calculate_aggregate_stats w) = w.
Proof.
  cbv zeta. rewrite calculate_basic_stats_closed, calculate_aggregate_stats_closed.
  simpl. repeat split.
  intros k H1 H2 H3 H4. unfold display_options.
  apply String.eqb_neq in H1, H2, H3, H4. rewrite H1, H2, H3, H4. reflexivity.
Qed.

Lemma aggregator_effects_witness :
  pd_options (snd (calculate_basic_stats DeviceClass (mkWorld ssd_pair pandas_defaults)))
             "display.precision"
  = pandas_defaults "display.precision".
Proof.
  apply (proj2 (proj2 (proj2 (proj2 (proj2
           (aggregator_effects DeviceClass (mkWorld ssd_pair pandas_defaults)))))));
    discriminate.
Defined.

(** C7 as stated fails: from the options pandas starts with,
    [calculate_basic_stats] leaves a world that differs from the one it was
    called in. *)
Lemma basic_stats_changes_options :
  ~ (snd (calculate_basic_stats DeviceClass (mkWorld ssd_pair pandas_defaults))
     = mkWorld ssd_pair pandas_defaults
     /\ snd (calculate_aggregate_stats (mkWorld ssd_pair pandas_defaults))
        = mkWorld ssd_pair pandas_defaults).
Proof.
  intros [H _]. rewrite calculate_basic_stats_closed in H. simpl in H.
  apply (f_equal (fun w => pd_options w "display.max_rows")) in H.
  vm_compute in H. discriminate.
Qed.

(** * Further properties of the code *)

(** ** bytes_to_human_readable *)

Lemma Qltb_proper (x x' y y' : Q) : x == x' -> y == y' -> Qltb x y = Qltb x' y'.
Proof. intros E1 E2. unfold Qltb. f_equal. apply Qleb_comp; assumption. Qed.

Lemma round_half_even_proper (q q' : Q) : q == q' -> round_half_even q = round_half_even q'.
Proof.
  intros E. unfold round_half_even.
  rewrite <- (Qfloor_comp q q' E).
  assert (R : q - inject_Z (Qfloor q) == q' - inject_Z (Qfloor q))
    by (apply Qplus_comp; [exact E | reflexivity]).
  rewrite (Qltb_proper _ _ (1#2) (1#2) R (Qeq_refl _)),
          (Qltb_proper (1#2) (1#2) _ _ (Qeq_refl _) R).
  reflexivity.
Qed.

Lemma format_2f_proper (q q' : Q) : q == q' -> format_2f (Fin q) = format_2f (Fin q').
Proof.
  intros E. unfold format_2f, hundredths, float_negative.
  rewrite (round_half_even_proper (100 * q) (100 * q'))
    by (apply Qmult_comp; [reflexivity | exact E]).
  rewrite (Qltb_proper q q' 0 0 E (Qeq_refl 0)). reflexivity.
Qed.

Lemma scaled_ge (q b : Q) : b * 1024 <= q -> b <= q / 1024.
Proof. intros H. apply Qle_shift_div_l; [reflexivity | exact H]. Qed.

Lemma scaled_lt (q b : Q) : q < b * 1024 -> q / 1024 < b.
Proof. intros H. apply Qlt_shift_div_r; [reflexivity | exact H]. Qed.

Lemma geb_true (q : Q) : 1024 <= q -> float_geb (Fin q) 1024 = true.
Proof. intros H. apply Qle_bool_iff. exact H. Qed.

Lemma geb_false (q : Q) : q < 1024 -> float_geb (Fin q) 1024 = false.
Proof.
  intros H. simpl. destruct (Qle_bool 1024 q) eqn:E; [|reflexivity].
  apply Qle_bool_iff in E. lra.
Qed.

Ltac scale_up := rewrite geb_true by (repeat apply scaled_ge; lra); cbn [scale_loop float_div].
Ltac scale_stop := rewrite geb_false by (repeat apply scaled_lt; lra).

(** X1.  A finite value below 1024 (a negative one included) is printed in
    B/s as it is, and a value from 1024^k up to, but not including,
    1024^(k+1), for k = 1, 2, 3, is printed divided by 1024^k in the k-th
    unit after B/s (KB/s, MB/s, GB/s). *)
Theorem human_readable_unit (q : Q) (k : nat) (u : string) :
  nth_error units k = Some u -> (k < 4)%nat ->
  (k <> 0%nat -> inject_Z (1024 ^ Z.of_nat k) <= q) ->
  q < inject_Z (1024 ^ Z.of_nat (S k)) ->
  bytes_to_human_readable (Fin q)
  = (format_2f (Fin (q / inject_Z (1024 ^ Z.of_nat k))) ++ " " ++ u)%string.
Proof.
  intros Hu Hk Hlo Hhi.
  destruct k as [|[|[|[|k]]]]; [| | | |lia]; simpl in Hu; inversion Hu; subst u; clear Hu;
    unfold bytes_to_human_readable, units; cbn [scale_loop float_div].
  - change (inject_Z (1024 ^ Z.of_nat 1)) with 1024 in Hhi.
    scale_stop.
    rewrite (format_2f_proper q (q / inject_Z (1024 ^ Z.of_nat 0))); [reflexivity|].
    change (inject_Z (1024 ^ Z.of_nat 0)) with 1. field.
  - assert (L : 1024 <= q) by (apply Hlo; discriminate).
    change (inject_Z (1024 ^ Z.of_nat 2)) with 1048576 in Hhi.
    scale_up. scale_stop. reflexivity.
  - assert (L : 1048576 <= q) by (apply Hlo; discriminate).
    change (inject_Z (1024 ^ Z.of_nat 3)) with 1073741824 in Hhi.
    scale_up. scale_up. scale_stop.
    rewrite (format_2f_proper (q / 1024 / 1024) (q / inject_Z (1024 ^ Z.of_nat 2))); [reflexivity|].
    change (inject_Z (1024 ^ Z.of_nat 2)) with 1048576. field.
  - assert (L : 1073741824 <= q) by (apply Hlo; discriminate).
    change (inject_Z (1024 ^ Z.of_nat 4)) with 1099511627776 in Hhi.
    scale_up. scale_up. scale_up. scale_stop.
    rewrite (format_2f_proper (q / 1024 / 1024 / 1024) (q / inject_Z (1024 ^ Z.of_nat 3))); [reflexivity|].
    change (inject_Z (1024 ^ Z.of_nat 3)) with 1073741824. field.
Qed.

Lemma human_readable_unit_witness :
  bytes_to_human_readable (Fin 3000) = "2.93 KB/s"
  /\ bytes_to_human_readable (Fin (-5000)) = "-5000.00 B/s".
Proof.
  split.
  - rewrite (human_readable_unit 3000 1 "KB/s" eq_refl); [reflexivity | lia | |];
      intros; vm_compute; congruence.
  - rewrite (human_readable_unit (-5000) 0 "B/s" eq_refl); [reflexivity | lia | |];
      intros; vm_compute; congruence.
Defined.

(** X2.  The loop stops at the last unit: every value from 1024^4 on is
    printed in TB/s divided by 1024^4, however large, so the number shown
    can be 1024 or more. *)
Theorem human_readable_last_unit (q : Q) :
  inject_Z (1024 ^ 4) <= q ->
  bytes_to_human_readable (Fin q)
  = (format_2f (Fin (q / inject_Z (1024 ^ 4))) ++ " TB/s")%string.
Proof.
  intros L. change (inject_Z (1024 ^ 4)) with 1099511627776 in *.
  unfold bytes_to_human_readable, units. cbn [scale_loop float_div].
  scale_up. scale_up. scale_up. scale_up.
  rewrite (format_2f_proper (q / 1024 / 1024 / 1024 / 1024) (q / 1099511627776)); [reflexivity|].
  field.
Qed.

Lemma human_readable_last_unit_witness :
  bytes_to_human_readable (Fin (5 * 1024 * 1024 * 1024 * 1024 * 1024)) = "5120.00 TB/s".
Proof.
  rewrite (human_readable_last_unit (5 * 1024 * 1024 * 1024 * 1024 * 1024));
    [reflexivity|].
  vm_compute. congruence.
Defined.

(** ** More on identify_outliers *)

(** X3.  The mapping the detector returns has distinct keys, which are
    device classes of the table in the order of their first appearance;
    no key maps to an empty list; the list of a class has no repetition,
    keeps the order in which the devices first appear in the class, and
    only names devices that have a sample of that class. *)
Theorem outliers_shape (df : DataFrame) (t : Q) :
  exists outliers,
    identify_outliers df t = Ok outliers
    /\ NoDup (dict_keys outliers)
    /\ (exists keep,
          dict_keys outliers = filter keep (unique String.eqb (map device_class df)))
    /\ forall dc l, In (dc, l) outliers ->
         l <> []
         /\ NoDup l
         /\ (exists keep, l = filter keep (class_osds df dc))
         /\ forall osd, In osd l ->
              exists s, In s df /\ device_class s = dc /\ osd_id s = osd.
Proof.
  exists (outliers_closed df t). split; [apply identify_outliers_closed|].
  assert (K : dict_keys (outliers_closed df t)
              = filter (fun dc => negb (is_nil (flagged_osds df t dc)))
                       (unique String.eqb (map device_class df))).
  { unfold outliers_closed, dict_keys. rewrite map_map. simpl. apply map_id. }
  split; [rewrite K; apply NoDup_filter, unique_NoDup, String.eqb_eq|].
  split; [eexists; exact K|].
  intros dc l H. unfold outliers_closed in H. apply in_map_iff in H.
  destruct H as [dc' [E H]]. inversion E; subst dc' l; clear E.
  apply filter_In in H. destruct H as [_ H].
  split; [intros E; rewrite E in H; discriminate|].
  split; [apply NoDup_filter, unique_NoDup, String.eqb_eq|].
  split; [eexists; reflexivity|].
  intros osd Ho. unfold flagged_osds in Ho. apply filter_In in Ho.
  apply class_osds_In. tauto.
Qed.

Lemma outliers_shape_witness :
  exists outliers,
    identify_outliers four_runs 15 = Ok outliers
    /\ In ("hdd", ["B"]) outliers
    /\ exists s, In s four_runs /\ device_class s = "hdd" /\ osd_id s = "B".
Proof.
  destruct (outliers_shape four_runs 15) as [o [Ho [_ [_ H]]]].
  assert (E : o = [("hdd", ["B"])]).
  { assert (R : identify_outliers four_runs 15 = Ok [("hdd", ["B"])])
      by (vm_compute; reflexivity).
    congruence. }
  exists o. split; [exact Ho|].
  assert (I : In ("hdd", ["B"]) o) by (rewrite E; left; reflexivity).
  split; [exact I|].
  destruct (H "hdd" ["B"] I) as [_ [_ [_ Hs]]]. apply Hs. left. reflexivity.
Defined.

Lemma count_below_le_participation (df : DataFrame) (t : Q) (dc osd : string) :
  (count_below df t dc osd <= participation df dc osd)%nat.
Proof.
  apply filter_length_le. intros run. unfold underperforms.
  destruct (device_run df dc osd run); [discriminate | reflexivity].
Qed.

(** X4.  A device with a sample in at most half of the table's runs is not
    flagged, whatever its values and the threshold. *)
Theorem sparse_device_not_flagged (df : DataFrame) (t : Q) (dc osd : string) :
  (2 * participation df dc osd <= total_runs df)%nat ->
  exists outliers,
    identify_outliers df t = Ok outliers /\ ~ flagged outliers dc osd.
Proof.
  intros H. exists (outliers_closed df t). split; [apply identify_outliers_closed|].
  rewrite flagged_iff_majority, majority_nat.
  pose proof (count_below_le_participation df t dc osd). lia.
Qed.

Lemma sparse_device_not_flagged_witness :
  participation sparse_device "hdd" "B" = 2%nat
  /\ total_runs sparse_device = 4%nat
  /\ runs_below sparse_device 15 "hdd" "B" = Ok 2%nat
  /\ exists outliers,
       identify_outliers sparse_device 15 = Ok outliers
       /\ ~ flagged outliers "hdd" "B".
Proof.
  split; [reflexivity|]. split; [reflexivity|]. split; [vm_compute; reflexivity|].
  apply (sparse_device_not_flagged sparse_device 15 "hdd" "B"). vm_compute. lia.
Defined.

(** ** The threshold *)

Lemma median_nonneg (l : list Q) : (forall x, In x l -> 0 <= x) -> 0 <= median l.
Proof.
  intros H.
  assert (N : forall i, 0 <= nth i (sort Qle_bool l) 0).
  { intros i. destruct (nth_in_or_default i (sort Qle_bool l) 0) as [Hin|E].
    - apply H. apply (sort_In Qle_bool). exact Hin.
    - rewrite E. apply Qle_refl. }
  unfold median. destruct (Nat.even (List.length l)); [|apply N].
  apply Qle_shift_div_l; [reflexivity|].
  pose proof (N (List.length l / 2 - 1)%nat). pose proof (N (List.length l / 2)%nat). lra.
Qed.

Lemma class_median_nonneg (df : DataFrame) (m : Metric) (dc : string) (run : Z) :
  non_negative df -> 0 <= class_median m df dc run.
Proof.
  intros H. apply median_nonneg. intros x Hx. apply in_map_iff in Hx.
  destruct Hx as [s [<- Hs]]. unfold run_frame, class_frame in Hs.
  rewrite !filter_In in Hs. destruct (H s) as [Hb Hi]; [tauto|].
  destruct m; assumption.
Qed.

Lemma cutoff_antitone (df : DataFrame) (m : Metric) (t t' : Q) (dc : string) (run : Z) :
  non_negative df -> t <= t' -> cutoff m df t' dc run <= cutoff m df t dc run.
Proof.
  intros H Ht. unfold cutoff. pose proof (class_median_nonneg df m dc run H) as Hm.
  set (c := class_median m df dc run) in *.
  assert (D : 0 <= c * ((t' - t) / 100)).
  { apply Qmult_le_0_compat; [exact Hm|]. apply Qle_shift_div_l; [reflexivity|]. lra. }
  setoid_replace (c * (1 - t / 100)) with (c * (1 - t' / 100) + c * ((t' - t) / 100))
    by field.
  lra.
Qed.

Lemma underperforms_antitone (df : DataFrame) (t t' : Q) (dc osd : string) (run : Z) :
  non_negative df -> t <= t' ->
  underperforms df t' dc osd run = true -> underperforms df t dc osd run = true.
Proof.
  intros H Ht. unfold underperforms. destruct (device_run df dc osd run) as [|s l]; [auto|].
  rewrite !orb_true_iff, !Qltb_iff.
  pose proof (cutoff_antitone df Iops t t' dc run H Ht).
  pose proof (cutoff_antitone df BytesPerSec t t' dc run H Ht).
  intros [A|A]; [left|right]; lra.
Qed.

(** X5.  On a table without negative metrics, raising the threshold never
    flags a further device: who is flagged at the higher threshold is
    flagged at the lower one. *)
Theorem raising_threshold_flags_fewer (df : DataFrame) (t t' : Q) (dc osd : string) :
  non_negative df -> t <= t' ->
  exists lower higher,
    identify_outliers df t = Ok lower
    /\ identify_outliers df t' = Ok higher
    /\ (flagged higher dc osd -> flagged lower dc osd).
Proof.
  intros H Ht. exists (outliers_closed df t), (outliers_closed df t').
  split; [apply identify_outliers_closed|]. split; [apply identify_outliers_closed|].
  rewrite !flagged_iff_majority. apply majority_mono.
  apply filter_length_le. intros run. apply underperforms_antitone; assumption.
Qed.

Lemma scenario_non_negative : non_negative (scenario 1000 1000 1000 1000).
Proof.
  intros s Hs. simpl in Hs.
  repeat (destruct Hs as [<-|Hs]; [split; intro; discriminate|]).
  destruct Hs.
Qed.

Lemma raising_threshold_flags_fewer_witness :
  exists lower higher,
    identify_outliers (scenario 1000 1000 1000 1000) 15 = Ok lower
    /\ identify_outliers (scenario 1000 1000 1000 1000) 30 = Ok higher
    /\ (flagged higher "hdd" "B" -> flagged lower "hdd" "B").
Proof.
  apply (raising_threshold_flags_fewer (scenario 1000 1000 1000 1000) 15 30 "hdd" "B").
  - exact scenario_non_negative.
  - intro; discriminate.
Defined.

Lemma no_run_counted_no_outliers (df : DataFrame) (t : Q) :
  (forall dc osd run, underperforms df t dc osd run = false) ->
  outliers_closed df t = [].
Proof.
  intros H. unfold outliers_closed.
  assert (F : forall dc, flagged_osds df t dc = []).
  { intros dc. unfold flagged_osds.
    induction (class_osds df dc) as [|o l IH]; simpl; [reflexivity|].
    destruct (majority (count_below df t dc o) (total_runs df)) eqn:M; [|exact IH].
    apply majority_nat in M. unfold count_below in M.
    assert (Z0 : filter (underperforms df t dc o) (run_numbers df) = []).
    { induction (run_numbers df) as [|r rs IHr]; simpl; [reflexivity|].
      rewrite H. apply IHr. simpl in M. rewrite H in M. exact M. }
    rewrite Z0 in M. simpl in M. lia. }
  induction (unique String.eqb (map device_class df)) as [|dc l IH]; simpl; [reflexivity|].
  rewrite F. simpl. exact IH.
Qed.

(** X6.  On a table without negative metrics, a threshold of 100 or more
    flags nobody: the detector returns the empty mapping. *)
Theorem threshold_100_flags_nothing (df : DataFrame) (t : Q) :
  non_negative df -> 100 <= t -> identify_outliers df t = Ok [].
Proof.
  intros H Ht. rewrite identify_outliers_closed. f_equal.
  apply no_run_counted_no_outliers. intros dc osd run.
  unfold underperforms. destruct (device_run df dc osd run) as [|s l] eqn:E; [reflexivity|].
  assert (Hs : In s df).
  { assert (I : In s (device_run df dc osd run)) by (rewrite E; left; reflexivity).
    unfold device_run, run_frame, osd_frame, class_frame in I.
    rewrite !filter_In in I. tauto. }
  destruct (H s Hs) as [Hb Hi].
  assert (C : forall m, cutoff m df t dc run <= 0).
  { intros m. unfold cutoff. pose proof (class_median_nonneg df m dc run H) as Hm.
    set (c := class_median m df dc run) in *.
    assert (D : 0 <= c * ((t - 100) / 100)).
    { apply Qmult_le_0_compat; [exact Hm|]. apply Qle_shift_div_l; [reflexivity|]. lra. }
    setoid_replace (c * (1 - t / 100)) with (- (c * ((t - 100) / 100))) by field.
    lra. }
  apply orb_false_iff. split; apply Qltb_false_iff.
  - pose proof (C Iops). lra.
  - pose proof (C BytesPerSec). lra.
Qed.

Lemma threshold_100_flags_nothing_witness :
  identify_outliers (scenario 1000 1000 1000 1000) 100 = Ok [].
Proof.
  apply threshold_100_flags_nothing.
  - exact scenario_non_negative.
  - intro; discriminate.
Defined.

(** ** What the other classes contribute *)

Lemma underperforms_class_only (df df' : DataFrame) (t : Q) (dc osd : string) (run : Z) :
  class_frame dc df' = class_frame dc df ->
  underperforms df' t dc osd run = underperforms df t dc osd run.
Proof.
  intros E. unfold underperforms, device_run, cutoff, class_median. rewrite E. reflexivity.
Qed.

Lemma underperforms_run_present (df : DataFrame) (t : Q) (dc osd : string) (run : Z) :
  underperforms df t dc osd run = true -> In run (run_numbers df).
Proof.
  unfold underperforms. destruct (device_run df dc osd run) as [|s l] eqn:E; [discriminate|].
  intros _. assert (I : In s (device_run df dc osd run)) by (rewrite E; left; reflexivity).
  unfold device_run, run_frame, osd_frame, class_frame in I. rewrite !filter_In in I.
  destruct I as [[[Hs _] _] Hr]. apply Z.eqb_eq in Hr.
  unfold run_numbers. apply unique_In; [exact Z.eqb_eq|]. rewrite <- Hr.
  apply in_map. exact Hs.
Qed.

Lemma filter_length_NoDup {A} (p : A -> bool) (l l' : list A) :
  NoDup l -> NoDup l' ->
  (forall x, p x = true -> In x l -> In x l') ->
  (List.length (filter p l) <= List.length (filter p l'))%nat.
Proof.
  intros N N' H. apply NoDup_incl_length; [apply NoDup_filter; exact N|].
  intros x Hx. apply filter_In in Hx. apply filter_In. split; [apply H|]; tauto.
Qed.

Lemma run_numbers_incl (df df' : DataFrame) :
  incl (map run_number df) (map run_number df') ->
  incl (run_numbers df) (run_numbers df').
Proof.
  intros H r Hr. unfold run_numbers in *.
  apply unique_In; [exact Z.eqb_eq|]. apply H.
  apply (unique_In Z.eqb Z.eqb_eq). exact Hr.
Qed.

Lemma count_below_class_only (df df' : DataFrame) (t : Q) (dc osd : string) :
  class_frame dc df' = class_frame dc df ->
  count_below df' t dc osd = count_below df t dc osd.
Proof.
  intros E. unfold count_below.
  assert (U : forall run, underperforms df' t dc osd run = underperforms df t dc osd run)
    by (intros run; apply underperforms_class_only; exact E).
  rewrite (filter_ext _ _ U).
  apply Nat.le_antisymm; apply filter_length_NoDup;
    try (apply unique_NoDup; exact Z.eqb_eq); intros r Hp _.
  - apply (underperforms_run_present df t dc osd). exact Hp.
  - rewrite <- U in Hp. apply (underperforms_run_present df' t dc osd). exact Hp.
Qed.

(** X7.  The samples of the other classes reach the result of a class only
    through the run numbers they bring.  Between two tables with the same
    samples of class dc, the second having every run number of the first,
    a device of dc flagged in the second is flagged in the first (further
    runs only raise the bar); and when the two tables have the same run
    numbers, dc has the same entry in both results. *)
Theorem other_classes_matter_only_through_runs (df df' : DataFrame) (t : Q) (dc : string) :
  class_frame dc df' = class_frame dc df ->
  incl (map run_number df) (map run_number df') ->
  exists outliers outliers',
    identify_outliers df t = Ok outliers
    /\ identify_outliers df' t = Ok outliers'
    /\ (forall osd, flagged outliers' dc osd -> flagged outliers dc osd)
    /\ (incl (map run_number df') (map run_number df) ->
        dict_get outliers' dc = dict_get outliers dc).
Proof.
  intros E I. exists (outliers_closed df t), (outliers_closed df' t).
  split; [apply identify_outliers_closed|]. split; [apply identify_outliers_closed|].
  assert (T : (total_runs df <= total_runs df')%nat).
  { apply NoDup_incl_length; [apply unique_NoDup; exact Z.eqb_eq|].
    apply run_numbers_incl. exact I. }
  split.
  - intros osd. rewrite !flagged_iff_majority, !majority_nat.
    rewrite (count_below_class_only df df' t dc osd E). lia.
  - intros I'.
    assert (T' : (total_runs df' <= total_runs df)%nat).
    { apply NoDup_incl_length; [apply unique_NoDup; exact Z.eqb_eq|].
      apply run_numbers_incl. exact I'. }
    rewrite !outliers_closed_get.
    assert (F : flagged_osds df' t dc = flagged_osds df t dc).
    { unfold flagged_osds, class_osds. rewrite E. apply filter_ext. intros osd.
      rewrite (count_below_class_only df df' t dc osd E).
      replace (total_runs df') with (total_runs df) by lia. reflexivity. }
    rewrite F. reflexivity.
Qed.

Lemma other_classes_matter_only_through_runs_witness :
  (exists outliers outliers',
     identify_outliers four_runs 15 = Ok outliers
     /\ identify_outliers two_more_runs 15 = Ok outliers'
     /\ forall osd, flagged outliers' "hdd" osd -> flagged outliers "hdd" osd)
  /\ (exists outliers outliers',
        identify_outliers four_runs 15 = Ok outliers
        /\ identify_outliers ssd_joins 15 = Ok outliers'
        /\ dict_get outliers' "hdd" = dict_get outliers "hdd").
Proof.
  assert (I : forall extra, incl (map run_number four_runs)
                                 (map run_number (four_runs ++ extra))).
  { intros extra r Hr. rewrite map_app. apply in_or_app. left. exact Hr. }
  split.
  - destruct (other_classes_matter_only_through_runs four_runs two_more_runs 15 "hdd"
                eq_refl (I _)) as [o [o' [H1 [H2 [H3 _]]]]].
    exists o, o'. auto.
  - destruct (other_classes_matter_only_through_runs four_runs ssd_joins 15 "hdd"
                eq_refl (I _)) as [o [o' [H1 [H2 [_ H4]]]]].
    exists o, o'. split; [exact H1|]. split; [exact H2|]. apply H4.
    intros r Hr. simpl in Hr. simpl. tauto.
Defined.

(** ** The medians of a class *)

Lemma series_find_absent {V} (f : Z -> V) (keys : list Z) (run : Z) :
  ~ In run keys -> series_find (map (fun r => (r, f r)) keys) run = None.
Proof.
  induction keys as [|k keys IH]; simpl; [reflexivity|].
  intros H. destruct (Z.eqb_spec k run) as [->|Hne]; [tauto|]. apply IH. tauto.
Qed.

(** X8.  The Series of per-run medians of a class has an entry exactly for
    the runs in which the class has a sample: there the lookup gives the
    median of the class in that run, and for any other run number it
    raises KeyError, which is what the test for an empty [run_data] keeps
    the loop away from. *)
Theorem median_lookup_needs_a_sample (df : DataFrame) (m : Metric) (dc : string) (run : Z) :
  (run_frame run (class_frame dc df) <> [] ->
   series_get (groupby_run_median m (class_frame dc df)) run
   = Ok (class_median m df dc run))
  /\ (run_frame run (class_frame dc df) = [] ->
      series_get (groupby_run_median m (class_frame dc df)) run = Raise KeyError).
Proof.
  split.
  - intros H. destruct (run_frame run (class_frame dc df)) as [|s l] eqn:E; [congruence|].
    assert (I : In s (run_frame run (class_frame dc df))) by (rewrite E; left; reflexivity).
    unfold run_frame in I. apply filter_In in I. destruct I as [Hs Hr].
    apply Z.eqb_eq in Hr. apply (median_lookup m _ run s Hs Hr).
  - intros E. unfold series_get, groupby_run_median.
    rewrite series_find_absent; [reflexivity|].
    intros I. apply group_keys_In in I; [|exact Z.eqb_eq].
    apply in_map_iff in I. destruct I as [s [Hr Hs]].
    assert (C : In s (run_frame run (class_frame dc df))).
    { unfold run_frame. apply filter_In. split; [exact Hs | apply Z.eqb_eq; exact Hr]. }
    rewrite E in C. destruct C.
Qed.

Lemma median_lookup_needs_a_sample_witness :
  series_get (groupby_run_median Iops (class_frame "hdd" sparse_device)) 3
  = Ok (class_median Iops sparse_device "hdd" 3)
  /\ series_get (groupby_run_median Iops (class_frame "hdd" sparse_device)) 7
     = Raise KeyError.
Proof.
  destruct (median_lookup_needs_a_sample sparse_device Iops "hdd" 3) as [H _].
  destruct (median_lookup_needs_a_sample sparse_device Iops "hdd" 7) as [_ H'].
  split; [apply H; vm_compute; discriminate | apply H'; reflexivity].
Defined.

(** ** More on the aggregator *)

Lemma pair_leb_total (a b : string * Z) : pair_leb a b = false -> pair_leb b a = true.
Proof.
  unfold pair_leb. rewrite (String.eqb_sym (fst b) (fst a)).
  destruct (String.eqb (fst a) (fst b)); [lia|].
  intros H. destruct (String.leb_total (fst a) (fst b)); congruence.
Qed.


Lemma pair_leb_before (a b : string * Z) : pair_leb a b = true -> pair_before a b.
Proof.
  unfold pair_leb, pair_before.
  destruct (String.eqb (fst a) (fst b)) eqn:E.
  - apply String.eqb_eq in E. intros H. right. split; [exact E | lia].
  - apply String.eqb_neq in E. unfold String.leb, String.ltb.
    destruct (String.compare (fst a) (fst b)) eqn:C; try discriminate; auto.
    apply String.compare_eq_iff in C. contradiction.
Qed.

(** X9.  [calculate_aggregate_stats] returns its records in ascending
    order of device class and, within a class, of run number. *)
Theorem totals_in_key_order (w : World) :
  exists rows,
    fst (calculate_aggregate_stats w) = Ok rows
    /\ Sorted pair_before (map agg_key rows).
Proof.
  exists (totals_closed (table w)).
  split; [rewrite calculate_aggregate_stats_closed; reflexivity|].
  rewrite totals_closed_keys. unfold pair_keys, group_keys.
  pose proof (sort_sorted pair_leb pair_leb_total
                (unique pair_eqb (map (fun s => (device_class s, run_number s)) (table w))))
    as S.
  induction S as [|a l Sl IH Hd]; constructor; [exact IH|].
  destruct Hd as [|b l' Hab]; constructor. apply pair_leb_before. exact Hab.
Qed.



